(** * polymarket_ws_client: the receive loop, payload resolution and the
      subscription protocol of [PolymarketWSClient]

    The development follows the two modules of the package:
    - [models.py]: the pydantic models ([Subscription], [Message], [Trade],
      [Comment], [Reaction] ...), embedded as records with the validation
      pydantic (v2, the version that provides [model_dump]) runs when a
      model is constructed;
    - [client.py]: [_parse_payload], [_message_loop], [subscribe],
      [unsubscribe], [disconnect], [connect] and [run], embedded as
      functions that return the trace of observable events (log records,
      hook calls, websocket operations); the ping task [_ping_loop] and
      the set-up of the TLS context at the head of [connect], embedded on
      their own.

    Python strings are sequences of code points; they are modelled by
    [string], one [ascii] per code point, which covers the code points
    below 256. *)

From Stdlib Require Import String Ascii List ZArith NArith Bool Lia SpecFloat.
From Stdlib Require Import DecimalString DecimalFacts DecimalPos.
Import ListNotations.
Open Scope list_scope.
Open Scope string_scope.

(** ** Python values that JSON can carry *)

(** What [json.loads] returns and [json.dumps] accepts: [None], [bool],
    [int], [float] (an IEEE 754 binary64 value), [str], [list] and [dict]
    with [str] keys.  A [dict] keeps its insertion order, which is the
    order [json.dumps] writes, so it is an association list; its keys
    are pairwise distinct when it is built with [dict_set]. *)
#[local] Unset Elimination Schemes.
Inductive json : Type :=
| JNull
| JBool (b : bool)
| JInt (z : Z)
| JFloat (f : spec_float)
| JStr (s : string)
| JArr (items : list json)
| JObj (members : list (string * json)).
#[local] Set Elimination Schemes.

Definition dict : Type := list (string * json).

(** [d.get(k)] *)
Fixpoint dict_get (d : dict) (k : string) : option json :=
  match d with
  | [] => None
  | (k', v) :: d' => if (k =? k')%string then Some v else dict_get d' k
  end.

(** [k in d] *)
Definition dict_contains (d : dict) (k : string) : bool :=
  match dict_get d k with Some _ => true | None => false end.

(** [d.get(k, default)] *)
Definition dict_get_default (d : dict) (k : string) (default : json) : json :=
  match dict_get d k with Some v => v | None => default end.

(** [d[k] = v]: an existing key keeps its place and takes the new value, a
    new key goes last. *)
Fixpoint dict_set (d : dict) (k : string) (v : json) : dict :=
  match d with
  | [] => [(k, v)]
  | (k', v') :: d' =>
      if (k =? k')%string then (k, v) :: d' else (k', v') :: dict_set d' k v
  end.

(** The dict display that unpacks [d] and then [d2]. *)
Definition dict_update (d d2 : dict) : dict :=
  fold_left (fun acc kv => dict_set acc (fst kv) (snd kv)) d2 d.

(** [v == s] for a string constant [s]: only a [str] equals a [str]. *)
Definition py_eq_str (v : json) (s : string) : bool :=
  match v with JStr s' => (s' =? s)%string | _ => false end.

(** [v in [s1, s2, ...]] for string constants *)
Definition py_in_strs (v : json) (l : list string) : bool :=
  existsb (py_eq_str v) l.

(** ** The text form: [json.dumps] and a reference decoder *)

Definition dquote : ascii := "034"%char.
Definition backslash : ascii := "092"%char.

Definition is_ws (c : ascii) : bool :=
  match N_of_ascii c with
  | 32%N | 9%N | 10%N | 13%N => true
  | _ => false
  end.

Definition is_digit (c : ascii) : bool :=
  let n := N_of_ascii c in ((48 <=? n) && (n <=? 57))%N.

Definition hex_char (n : N) : ascii :=
  match String.get (N.to_nat n) "0123456789abcdef" with
  | Some c => c
  | None => "0"%char
  end.

Definition hex_value (c : ascii) : option N :=
  let n := N_of_ascii c in
  if ((48 <=? n) && (n <=? 57))%N then Some (n - 48)%N
  else if ((97 <=? n) && (n <=? 102))%N then Some (n - 87)%N
  else if ((65 <=? n) && (n <=? 70))%N then Some (n - 55)%N
  else None.

(** [encode_basestring_ascii]: what [json.dumps] (with its default
    [ensure_ascii=True]) writes for one code point of a string. *)
Definition escape_char (c : ascii) : string :=
  let n := N_of_ascii c in
  if (n =? 34)%N then String backslash (String dquote "")
  else if (n =? 92)%N then String backslash (String backslash "")
  else if (n =? 10)%N then String backslash "n"
  else if (n =? 13)%N then String backslash "r"
  else if (n =? 9)%N then String backslash "t"
  else if (n =? 12)%N then String backslash "f"
  else if (n =? 8)%N then String backslash "b"
  else if ((32 <=? n) && (n <=? 126))%N then String c ""
  else String backslash
         (String "u" (String "0" (String "0"
            (String (hex_char (n / 16)) (String (hex_char (n mod 16)) ""))))).

Fixpoint escape_string (s : string) : string :=
  match s with
  | EmptyString => ""
  | String c s' => escape_char c ++ escape_string s'
  end.

Definition quote (s : string) : string :=
  String dquote (escape_string s ++ String dquote "").

(** [int.__repr__] *)
Definition int_repr (z : Z) : string := NilZero.string_of_int (Z.to_int z).

(** [float.__repr__], for the finite values, is the shortest decimal that
    reads back as the same binary64 value; it is a builtin of the
    interpreter and enters as the parameter [float_repr].  The three
    values that are not finite are written by [json.dumps] itself. *)
Definition float_dumps (float_repr : spec_float -> string) (f : spec_float) : string :=
  match f with
  | S754_nan => "NaN"
  | S754_infinity false => "Infinity"
  | S754_infinity true => "-Infinity"
  | _ => float_repr f
  end.

(** [json.dumps(v)] with the default separators [", "] and [": "]. *)
Fixpoint dumps (float_repr : spec_float -> string) (v : json) : string :=
  match v with
  | JNull => "null"
  | JBool true => "true"
  | JBool false => "false"
  | JInt z => int_repr z
  | JFloat f => float_dumps float_repr f
  | JStr s => quote s
  | JArr items => "[" ++ String.concat ", " (map (dumps float_repr) items) ++ "]"
  | JObj members =>
      "{" ++ String.concat ", "
               (map (fun kv => quote (fst kv) ++ ": " ++ dumps float_repr (snd kv))
                    members) ++ "}"
  end.

(** The reference decoder reads the JSON grammar the way [json.loads]
    scans it (whitespace is blank, tab, line feed and carriage return; a
    string may not hold a raw control character; [NaN], [Infinity] and
    [-Infinity] are read as floats).  Two things are outside it and are
    answered with [None] like a malformed text: a number written with a
    fraction or an exponent (reading it needs IEEE rounding) and an escape
    [\uXXXX] above U+00FF (not a code point of [string]). *)

Fixpoint skip_ws (s : string) : string :=
  match s with
  | String c s' => if is_ws c then skip_ws s' else s
  | EmptyString => s
  end.

Definition hex4 (a b c d : ascii) : option N :=
  match hex_value a, hex_value b, hex_value c, hex_value d with
  | Some x, Some y, Some z, Some w => Some (((x * 16 + y) * 16 + z) * 16 + w)%N
  | _, _, _, _ => None
  end.

(** The character a backslash escape stands for ([BACKSLASH] of
    [json.decoder]); [\u] is read by [scanstring]. *)
Definition unescape (e : ascii) : option ascii :=
  match N_of_ascii e with
  | 34%N => Some dquote
  | 92%N => Some backslash
  | 47%N => Some "/"%char
  | 98%N => Some "008"%char
  | 102%N => Some "012"%char
  | 110%N => Some "010"%char
  | 114%N => Some "013"%char
  | 116%N => Some "009"%char
  | _ => None
  end.

Definition cons_char (c : ascii) (r : option (string * string)) : option (string * string) :=
  match r with
  | Some (s, rest) => Some (String c s, rest)
  | None => None
  end.

(** [scanstring]: the text after an opening quote, up to the closing one.
    Returns the string read and the text that follows it. *)
Fixpoint scanstring (s : string) : option (string * string) :=
  match s with
  | EmptyString => None
  | String c s' =>
      if Ascii.eqb c dquote then Some ("", s')
      else if Ascii.eqb c backslash then
        match s' with
        | EmptyString => None
        | String e s'' =>
            if Ascii.eqb e "u" then
              match s'' with
              | String h1 (String h2 (String h3 (String h4 s5))) =>
                  match hex4 h1 h2 h3 h4 with
                  | Some n =>
                      if (n <? 256)%N then cons_char (ascii_of_N n) (scanstring s5)
                      else None
                  | None => None
                  end
              | _ => None
              end
            else
              match unescape e with
              | Some ch => cons_char ch (scanstring s'')
              | None => None
              end
        end
      else if (N_of_ascii c <? 32)%N then None
      else cons_char c (scanstring s')
  end.

Fixpoint strip_prefix (p s : string) : option string :=
  match p with
  | EmptyString => Some s
  | String a p' =>
      match s with
      | String b s' => if Ascii.eqb a b then strip_prefix p' s' else None
      | EmptyString => None
      end
  end.

Definition literal (lit : string) (v : json) (s : string) : option (json * string) :=
  match strip_prefix lit s with
  | Some rest => Some (v, rest)
  | None => None
  end.

Fixpoint scan_digits (acc : N) (s : string) : N * string :=
  match s with
  | String c s' =>
      if is_digit c then scan_digits (acc * 10 + (N_of_ascii c - 48))%N s'
      else (acc, s)
  | EmptyString => (acc, s)
  end.

Definition starts_fraction_or_exponent (s : string) : bool :=
  match s with
  | String c _ => Ascii.eqb c "." || Ascii.eqb c "e" || Ascii.eqb c "E"
  | EmptyString => false
  end.

(** [NUMBER_RE], for the integers: an optional minus, then [0] or a digit
    from 1 to 9 with any digits after it. *)
Definition scan_number (s : string) : option (json * string) :=
  let (neg, s1) :=
    match s with
    | String c r => if Ascii.eqb c "-" then (true, r) else (false, s)
    | EmptyString => (false, s)
    end in
  match s1 with
  | String c r =>
      if is_digit c then
        let (n, rest) := if Ascii.eqb c "0" then (0%N, r) else scan_digits 0 s1 in
        if starts_fraction_or_exponent rest then None
        else Some (JInt (if neg then - Z.of_N n else Z.of_N n), rest)
      else None
  | EmptyString => None
  end.

(** [dict(pairs)]: a repeated key keeps its first place and its last
    value. *)
Definition dict_of_pairs (pairs : list (string * json)) : dict :=
  dict_update [] pairs.

(** [scan_once], [JSONArray] and [JSONObject].  [parse_value] starts at the
    first character of a value, [parse_items] at the first character of an
    array element, [parse_members] at the opening quote of a key.  Every
    call spends one unit of [fuel]. *)
Fixpoint parse_value (fuel : nat) (s : string) {struct fuel} : option (json * string) :=
  match fuel with
  | O => None
  | S fuel' =>
      match s with
      | EmptyString => None
      | String c s' =>
          if Ascii.eqb c dquote then
            match scanstring s' with
            | Some (str, rest) => Some (JStr str, rest)
            | None => None
            end
          else if Ascii.eqb c "{" then
            match skip_ws s' with
            | EmptyString => None
            | String c1 r1 =>
                if Ascii.eqb c1 "}" then Some (JObj [], r1)
                else
                  match parse_members fuel' (String c1 r1) with
                  | Some (pairs, rest) => Some (JObj (dict_of_pairs pairs), rest)
                  | None => None
                  end
            end
          else if Ascii.eqb c "[" then
            match skip_ws s' with
            | EmptyString => None
            | String c1 r1 =>
                if Ascii.eqb c1 "]" then Some (JArr [], r1)
                else
                  match parse_items fuel' (String c1 r1) with
                  | Some (items, rest) => Some (JArr items, rest)
                  | None => None
                  end
            end
          else if Ascii.eqb c "n" then literal "null" JNull s
          else if Ascii.eqb c "t" then literal "true" (JBool true) s
          else if Ascii.eqb c "f" then literal "false" (JBool false) s
          else if Ascii.eqb c "N" then literal "NaN" (JFloat S754_nan) s
          else if Ascii.eqb c "I" then literal "Infinity" (JFloat (S754_infinity false)) s
          else
            match literal "-Infinity" (JFloat (S754_infinity true)) s with
            | Some r => Some r
            | None => scan_number s
            end
      end
  end
with parse_items (fuel : nat) (s : string) {struct fuel} : option (list json * string) :=
  match fuel with
  | O => None
  | S fuel' =>
      match parse_value fuel' s with
      | None => None
      | Some (v, r) =>
          match skip_ws r with
          | EmptyString => None
          | String c r' =>
              if Ascii.eqb c "," then
                match parse_items fuel' (skip_ws r') with
                | Some (vs, rest) => Some (v :: vs, rest)
                | None => None
                end
              else if Ascii.eqb c "]" then Some ([v], r')
              else None
          end
      end
  end
with parse_members (fuel : nat) (s : string) {struct fuel}
  : option (list (string * json) * string) :=
  match fuel with
  | O => None
  | S fuel' =>
      match s with
      | EmptyString => None
      | String c s' =>
          if Ascii.eqb c dquote then
            match scanstring s' with
            | None => None
            | Some (k, r) =>
                match skip_ws r with
                | EmptyString => None
                | String c1 r1 =>
                    if Ascii.eqb c1 ":" then
                      match parse_value fuel' (skip_ws r1) with
                      | None => None
                      | Some (v, r2) =>
                          match skip_ws r2 with
                          | EmptyString => None
                          | String c2 r3 =>
                              if Ascii.eqb c2 "," then
                                match parse_members fuel' (skip_ws r3) with
                                | Some (ms, rest) => Some ((k, v) :: ms, rest)
                                | None => None
                                end
                              else if Ascii.eqb c2 "}" then Some ([(k, v)], r3)
                              else None
                          end
                      end
                    else None
                end
            end
          else None
      end
  end.

(** [JSONDecoder.decode]: blanks, one value, blanks, and nothing more. *)
Definition reference_loads (s : string) : option json :=
  match parse_value (String.length s) (skip_ws s) with
  | Some (v, rest) =>
      match skip_ws rest with
      | EmptyString => Some v
      | String _ _ => None
      end
  | None => None
  end.

(** ** What the interpreter and pydantic supply *)

(** Outcome of [json.loads(message)]: the decoded value, [JSONDecodeError],
    or another exception (a [RecursionError] on a deeply nested text). *)
Inductive loads_result : Type :=
| Loaded (data : json)
| JSONDecodeError
| LoadsRaised.

(** The library functions the package calls and does not define.  The
    receive loop is stated for every [json_loads]; [int_of_str],
    [int_of_float], [float_of_str] and [float_of_int] are the conversions
    pydantic applies, outside strict mode, when a field of type [int] or
    [float] is given a value of another type. *)
Class PyRuntime : Type := {
  json_loads : string -> loads_result;
  float_repr : spec_float -> string;
  int_of_str : string -> option Z;
  int_of_float : spec_float -> option Z;
  float_of_str : string -> option spec_float;
  float_of_int : Z -> option spec_float
}.

(** A runtime to run the model on concrete frames: it decodes with
    [reference_loads] and converts nothing across types. *)
Definition reference_runtime : PyRuntime := {|
  json_loads := fun s =>
    match reference_loads s with Some v => Loaded v | None => JSONDecodeError end;
  float_repr := fun _ => "0.0";
  int_of_str := fun _ => None;
  int_of_float := fun _ => None;
  float_of_str := fun _ => None;
  float_of_int := fun _ => None
|}.

Definition json_dumps {R : PyRuntime} (v : json) : string := dumps float_repr v.

Notation "x <- e ;; k" :=
  (match e with Some x => k | None => None end)
  (at level 61, e at next level, right associativity, only parsing).

(** ** models.py *)

(** Field validation as pydantic v2 runs it on Python input: a value of
    the field's own type is taken as it is; [None] is an error unless the
    field is [Optional]; a [str] field takes nothing but a [str]. *)
Section Validators.
Context {R : PyRuntime}.

Definition validate_str (v : json) : option string :=
  match v with JStr s => Some s | _ => None end.

Definition validate_int (v : json) : option Z :=
  match v with
  | JInt z => Some z
  | JBool b => Some (if b then 1 else 0)%Z
  | JFloat f => int_of_float f
  | JStr s => int_of_str s
  | _ => None
  end.

Definition validate_float (v : json) : option spec_float :=
  match v with
  | JFloat f => Some f
  | JInt z => float_of_int z
  | JBool b => float_of_int (if b then 1 else 0)%Z
  | JStr s => float_of_str s
  | _ => None
  end.

Definition validate_optional {A : Type} (validate : json -> option A) (v : json)
  : option (option A) :=
  match v with
  | JNull => Some None
  | _ => match validate v with Some a => Some (Some a) | None => None end
  end.

(** A field declared without a default: the key must be there. *)
Definition required {A : Type} (validate : json -> option A) (kwargs : dict) (name : string)
  : option A :=
  match dict_get kwargs name with
  | Some v => validate v
  | None => None
  end.

(** A field declared [Optional[...] = None]: an absent key gives [None]. *)
Definition defaults_to_None {A : Type} (validate : json -> option A) (kwargs : dict)
  (name : string) : option (option A) :=
  match dict_get kwargs name with
  | Some v => validate_optional validate v
  | None => Some None
  end.

(** Unpacking [v] as keyword arguments: only a mapping can be unpacked (a
    [TypeError] otherwise). *)
Definition unpack (v : json) : option dict :=
  match v with JObj d => Some d | _ => None end.

End Validators.

Definition dump_optional {A : Type} (dump : A -> json) (o : option A) : json :=
  match o with Some a => dump a | None => JNull end.

(** [List[...]]: a list, each item of which validates. *)
Fixpoint validate_items {A : Type} (validate : json -> option A) (items : list json)
  : option (list A) :=
  match items with
  | [] => Some []
  | v :: rest =>
      match validate v, validate_items validate rest with
      | Some a, Some l => Some (a :: l)
      | _, _ => None
      end
  end.

Definition validate_list {A : Type} (validate : json -> option A) (v : json)
  : option (list A) :=
  match v with JArr items => validate_items validate items | _ => None end.

Module ClobApiKeyCreds.
Record t : Type := { key : string; secret : string; passphrase : string }.

Definition init (kwargs : dict) : option t :=
  k <- required validate_str kwargs "key" ;;
  s <- required validate_str kwargs "secret" ;;
  p <- required validate_str kwargs "passphrase" ;;
  Some {| key := k; secret := s; passphrase := p |}.

(** A nested model is given as a dict of its fields (an instance of the
    model, which pydantic takes as it is, is the dict of its dump). *)
Definition validate (v : json) : option t :=
  d <- unpack v ;; init d.

Definition model_dump (m : t) : json :=
  JObj [("key", JStr (key m)); ("secret", JStr (secret m));
        ("passphrase", JStr (passphrase m))].
End ClobApiKeyCreds.

Module GammaAuth.
Record t : Type := { address : string }.

Definition init (kwargs : dict) : option t :=
  a <- required validate_str kwargs "address" ;;
  Some {| address := a |}.

Definition validate (v : json) : option t :=
  d <- unpack v ;; init d.

Definition model_dump (m : t) : json := JObj [("address", JStr (address m))].
End GammaAuth.

Module Subscription.
Record t : Type := {
  topic : string;
  type : string;
  filters : option string;
  clob_auth : option ClobApiKeyCreds.t;
  gamma_auth : option GammaAuth.t
}.

Definition init (kwargs : dict) : option t :=
  to <- required validate_str kwargs "topic" ;;
  ty <- required validate_str kwargs "type" ;;
  fi <- defaults_to_None validate_str kwargs "filters" ;;
  cl <- defaults_to_None ClobApiKeyCreds.validate kwargs "clob_auth" ;;
  ga <- defaults_to_None GammaAuth.validate kwargs "gamma_auth" ;;
  Some {| topic := to; type := ty; filters := fi; clob_auth := cl; gamma_auth := ga |}.

Definition validate (v : json) : option t :=
  d <- unpack v ;; init d.

Definition model_dump (m : t) : json :=
  JObj [("topic", JStr (topic m)); ("type", JStr (type m));
        ("filters", dump_optional JStr (filters m));
        ("clob_auth", dump_optional ClobApiKeyCreds.model_dump (clob_auth m));
        ("gamma_auth", dump_optional GammaAuth.model_dump (gamma_auth m))].
End Subscription.

Module SubscriptionMessage.
Record t : Type := { subscriptions : list Subscription.t }.

Definition model_dump (m : t) : dict :=
  [("subscriptions", JArr (map Subscription.model_dump (subscriptions m)))].

(** [SubscriptionMessage] constructed from the keyword arguments
    [kwargs]. *)
Definition init (kwargs : dict) : option t :=
  subs <- required (validate_list Subscription.validate) kwargs "subscriptions" ;;
  Some {| subscriptions := subs |}.
End SubscriptionMessage.

Module Message.
(** [payload: Dict[str, Any]] *)
Record t : Type := {
  topic : string;
  type : string;
  timestamp : Z;
  payload : dict
}.
End Message.

Module Trade.
Variant Side : Type := BUY | SELL.

(** [Literal["BUY", "SELL"]] *)
Definition validate_side (v : json) : option Side :=
  match v with
  | JStr s => if (s =? "BUY")%string then Some BUY
              else if (s =? "SELL")%string then Some SELL else None
  | _ => None
  end.

Record t : Type := {
  asset : string;
  bio : string;
  conditionId : string;
  eventSlug : string;
  icon : string;
  name : string;
  outcome : string;
  outcomeIndex : Z;
  price : spec_float;
  profileImage : string;
  profileImageOptimized : option string;
  proxyWallet : string;
  pseudonym : string;
  side : Side;
  size : Z;
  slug : string;
  timestamp : Z;
  title : string;
  transactionHash : string
}.

Definition init {R : PyRuntime} (kwargs : dict) : option t :=
  f1 <- required validate_str kwargs "asset" ;;
  f2 <- required validate_str kwargs "bio" ;;
  f3 <- required validate_str kwargs "conditionId" ;;
  f4 <- required validate_str kwargs "eventSlug" ;;
  f5 <- required validate_str kwargs "icon" ;;
  f6 <- required validate_str kwargs "name" ;;
  f7 <- required validate_str kwargs "outcome" ;;
  f8 <- required validate_int kwargs "outcomeIndex" ;;
  f9 <- required validate_float kwargs "price" ;;
  f10 <- required validate_str kwargs "profileImage" ;;
  f11 <- defaults_to_None validate_str kwargs "profileImageOptimized" ;;
  f12 <- required validate_str kwargs "proxyWallet" ;;
  f13 <- required validate_str kwargs "pseudonym" ;;
  f14 <- required validate_side kwargs "side" ;;
  f15 <- required validate_int kwargs "size" ;;
  f16 <- required validate_str kwargs "slug" ;;
  f17 <- required validate_int kwargs "timestamp" ;;
  f18 <- required validate_str kwargs "title" ;;
  f19 <- required validate_str kwargs "transactionHash" ;;
  Some {| asset := f1; bio := f2; conditionId := f3; eventSlug := f4; icon := f5;
          name := f6; outcome := f7; outcomeIndex := f8; price := f9;
          profileImage := f10; profileImageOptimized := f11; proxyWallet := f12;
          pseudonym := f13; side := f14; size := f15; slug := f16;
          timestamp := f17; title := f18; transactionHash := f19 |}.

(** The names of the fields, and those among them that have no default. *)
Definition model_fields : list string :=
  ["asset"; "bio"; "conditionId"; "eventSlug"; "icon"; "name"; "outcome"; "outcomeIndex";
   "price"; "profileImage"; "profileImageOptimized"; "proxyWallet"; "pseudonym"; "side";
   "size"; "slug"; "timestamp"; "title"; "transactionHash"].

Definition required_fields : list string :=
  ["asset"; "bio"; "conditionId"; "eventSlug"; "icon"; "name"; "outcome"; "outcomeIndex";
   "price"; "profileImage"; "proxyWallet"; "pseudonym"; "side"; "size"; "slug";
   "timestamp"; "title"; "transactionHash"].
End Trade.

Module Comment.
Variant ParentEntityType : Type := Event | Series.

(** [Literal["Event", "Series"]] *)
Definition validate_parentEntityType (v : json) : option ParentEntityType :=
  match v with
  | JStr s => if (s =? "Event")%string then Some Event
              else if (s =? "Series")%string then Some Series else None
  | _ => None
  end.

(** [parentCommentID] and [replyAddress] are [Optional] with no default:
    the key must be there and its value may be [None]. *)
Record t : Type := {
  id : string;
  body : string;
  parentEntityType : ParentEntityType;
  parentEntityID : Z;
  parentCommentID : option string;
  userAddress : string;
  replyAddress : option string;
  createdAt : string;
  updatedAt : string
}.

Definition init {R : PyRuntime} (kwargs : dict) : option t :=
  f1 <- required validate_str kwargs "id" ;;
  f2 <- required validate_str kwargs "body" ;;
  f3 <- required validate_parentEntityType kwargs "parentEntityType" ;;
  f4 <- required validate_int kwargs "parentEntityID" ;;
  f5 <- required (validate_optional validate_str) kwargs "parentCommentID" ;;
  f6 <- required validate_str kwargs "userAddress" ;;
  f7 <- required (validate_optional validate_str) kwargs "replyAddress" ;;
  f8 <- required validate_str kwargs "createdAt" ;;
  f9 <- required validate_str kwargs "updatedAt" ;;
  Some {| id := f1; body := f2; parentEntityType := f3; parentEntityID := f4;
          parentCommentID := f5; userAddress := f6; replyAddress := f7;
          createdAt := f8; updatedAt := f9 |}.

(** The names of the fields; none has a default. *)
Definition model_fields : list string :=
  ["id"; "body"; "parentEntityType"; "parentEntityID"; "parentCommentID"; "userAddress";
   "replyAddress"; "createdAt"; "updatedAt"].
End Comment.

Module Reaction.
Record t : Type := {
  id : string;
  commentID : Z;
  reactionType : string;
  icon : string;
  userAddress : string;
  createdAt : string
}.

Definition init {R : PyRuntime} (kwargs : dict) : option t :=
  f1 <- required validate_str kwargs "id" ;;
  f2 <- required validate_int kwargs "commentID" ;;
  f3 <- required validate_str kwargs "reactionType" ;;
  f4 <- required validate_str kwargs "icon" ;;
  f5 <- required validate_str kwargs "userAddress" ;;
  f6 <- required validate_str kwargs "createdAt" ;;
  Some {| id := f1; commentID := f2; reactionType := f3; icon := f4;
          userAddress := f5; createdAt := f6 |}.

(** The names of the fields; none has a default. *)
Definition model_fields : list string :=
  ["id"; "commentID"; "reactionType"; "icon"; "userAddress"; "createdAt"].
End Reaction.

(** ** client.py *)

(** [PayloadType = Union[Trade, Comment, Reaction, Dict[str, Any]]]; the
    last case holds the payload as it came, whatever its type. *)
Inductive PayloadType : Type :=
| OfTrade (t : Trade.t)
| OfComment (c : Comment.t)
| OfReaction (r : Reaction.t)
| Raw (payload : json).

(** [Message(topic=..., type=..., timestamp=..., payload=...)].  The field
    [payload: Dict[str, Any]] takes a dict; an instance of a model is not a
    mapping and is refused like any other value. *)
Definition Message_init {R : PyRuntime} (topic type timestamp : json) (payload : PayloadType)
  : option Message.t :=
  to <- validate_str topic ;;
  ty <- validate_str type ;;
  ts <- validate_int timestamp ;;
  pl <- match payload with Raw (JObj d) => Some d | _ => None end ;;
  Some {| Message.topic := to; Message.type := ty; Message.timestamp := ts;
          Message.payload := pl |}.

Inductive level : Type := DEBUG | INFO | WARNING | ERROR.

(** What a call of a hook does: the callable returns, or raises. *)
Inductive hook_outcome : Type := Returns | Raises.

(** The events a run of the client can be observed by: a log record, given
    by its level and the fixed part of its text; a call of the connect
    hook and of the message hook (handed to the executor and awaited); the
    calls [connect(host)], [send(frame)] and [close()] on the websocket;
    the creation and the cancellation of the ping task; a sleep. *)
Inductive event : Type :=
| Log (lvl : level) (text : string)
| OnConnect
| OnMessage (msg : Message.t)
| WsConnect (host : string)
| WsSend (frame : string)
| WsClose
| PingTaskCreate
| PingTaskCancel
| Sleep (seconds : Z).

(** The connection object [self.websocket] refers to. *)
Inductive websocket_state : Type := WsOpen | WsClosed.

Inductive task_state : Type := TaskRunning | TaskCancelled.

(** The attributes of a [PolymarketWSClient] the methods below read or
    write.  A hook is given by what a call of it does. *)
Record PolymarketWSClient : Type := {
  host : string;
  auto_reconnect : bool;
  on_connect_callback : option hook_outcome;
  on_message_callback : option (Message.t -> hook_outcome);
  websocket : option websocket_state;
  ping_task : option task_state;
  running : bool
}.

(** [__init__] *)
Definition new_client (on_connect : option hook_outcome)
  (on_message : option (Message.t -> hook_outcome)) (host : string)
  (auto_reconnect : bool) : PolymarketWSClient :=
  {| host := host; auto_reconnect := auto_reconnect;
     on_connect_callback := on_connect; on_message_callback := on_message;
     websocket := None; ping_task := None; running := false |}.

Definition DEFAULT_HOST : string := "wss://ws-live-data.polymarket.com".

Section Client.
Context {R : PyRuntime}.

(** [_parse_payload] (lines 114-127): the value returned and the warning
    logged, if any.  An exception of a constructor, or of the unpacking,
    is caught by the handler. *)
Definition _parse_payload (topic payload_type payload : json) : PayloadType * list event :=
  let failed := (Raw payload, [Log WARNING "Failed to parse payload: "]) in
  if py_eq_str topic "activity" && py_eq_str payload_type "trades" then
    match unpack payload with
    | Some kwargs =>
        match Trade.init kwargs with
        | Some t => (OfTrade t, [])
        | None => failed
        end
    | None => failed
    end
  else if py_eq_str topic "comments" then
    if py_in_strs payload_type ["comment_created"; "comment_removed"] then
      match unpack payload with
      | Some kwargs =>
          match Comment.init kwargs with
          | Some c => (OfComment c, [])
          | None => failed
          end
      | None => failed
      end
    else if py_in_strs payload_type ["reaction_created"; "reaction_removed"] then
      match unpack payload with
      | Some kwargs =>
          match Reaction.init kwargs with
          | Some r => (OfReaction r, [])
          | None => failed
          end
      | None => failed
      end
    else (Raw payload, [])
  else (Raw payload, []).

(** The body of the [async for] of [_message_loop] (lines 132-162), for one
    message.  A [ValidationError] of [Message] and an exception of the hook
    reach the last handler. *)
Definition handle_message (c : PolymarketWSClient) (message : string) : list event :=
  if (message =? "")%string then []
  else
    match json_loads message with
    | JSONDecodeError => [Log ERROR "Failed to parse message: "]
    | LoadsRaised => [Log ERROR "Error processing message: "]
    | Loaded (JObj data) =>
        if dict_contains data "payload" then
          let topic := dict_get_default data "topic" (JStr "") in
          let msg_type := dict_get_default data "type" (JStr "") in
          let (parsed_payload, warnings) :=
            _parse_payload topic msg_type (dict_get_default data "payload" (JObj [])) in
          (warnings ++
           match Message_init topic msg_type (dict_get_default data "timestamp" (JInt 0))
                   parsed_payload with
           | None => [Log ERROR "Error processing message: "]
           | Some msg =>
               match on_message_callback c with
               | Some hook =>
                   OnMessage msg ::
                   match hook msg with
                   | Returns => []
                   | Raises => [Log ERROR "Error processing message: "]
                   end
               | None => []
               end
           end)%list
        else [Log DEBUG "Received message: "]
    | Loaded _ => [Log DEBUG "Received message: "]
    end.

(** [_message_loop] over the messages the connection yields, in order. *)
Fixpoint _message_loop (c : PolymarketWSClient) (messages : list string) : list event :=
  match messages with
  | [] => []
  | message :: rest => (handle_message c message ++ _message_loop c rest)%list
  end.

(** How a call of a method ends. *)
Inductive call_result : Type :=
| Returned
| Raised (exception : string).

(** [await self.websocket.send(frame)]: a closed connection raises
    [ConnectionClosed]; on an open one the network decides. *)
Definition send_succeeds (ws : websocket_state) (network_ok : bool) : bool :=
  match ws with
  | WsOpen => network_ok
  | WsClosed => false
  end.

Definition set_websocket (c : PolymarketWSClient) (ws : option websocket_state)
  : PolymarketWSClient :=
  {| host := host c; auto_reconnect := auto_reconnect c;
     on_connect_callback := on_connect_callback c;
     on_message_callback := on_message_callback c;
     websocket := ws; ping_task := ping_task c; running := running c |}.

Definition set_running (c : PolymarketWSClient) (b : bool) : PolymarketWSClient :=
  {| host := host c; auto_reconnect := auto_reconnect c;
     on_connect_callback := on_connect_callback c;
     on_message_callback := on_message_callback c;
     websocket := websocket c; ping_task := ping_task c; running := b |}.

Definition set_ping_task (c : PolymarketWSClient) (t : option task_state)
  : PolymarketWSClient :=
  {| host := host c; auto_reconnect := auto_reconnect c;
     on_connect_callback := on_connect_callback c;
     on_message_callback := on_message_callback c;
     websocket := websocket c; ping_task := t; running := running c |}.

(** [subscribe] (lines 170-184).  [WsSend frame] records the call of
    [send]; when the call raises, the handler logs and closes the
    connection, and the method returns. *)
Definition subscribe (c : PolymarketWSClient) (msg : SubscriptionMessage.t)
  (network_ok : bool) : PolymarketWSClient * list event * call_result :=
  match websocket c with
  | None => (c, [], Raised "Not connected to WebSocket server")
  | Some ws =>
      let subscription_dict :=
        dict_update [("action", JStr "subscribe")] (SubscriptionMessage.model_dump msg) in
      let frame := json_dumps (JObj subscription_dict) in
      if send_succeeds ws network_ok then
        (c, [WsSend frame; Log INFO "Subscribed to "], Returned)
      else
        (set_websocket c (Some WsClosed),
         [WsSend frame; Log ERROR "Subscribe error: "; WsClose], Returned)
  end.

(** [unsubscribe] (lines 186-200) *)
Definition unsubscribe (c : PolymarketWSClient) (msg : SubscriptionMessage.t)
  (network_ok : bool) : PolymarketWSClient * list event * call_result :=
  match websocket c with
  | None => (c, [], Raised "Not connected to WebSocket server")
  | Some ws =>
      let subscription_dict :=
        dict_update [("action", JStr "unsubscribe")] (SubscriptionMessage.model_dump msg) in
      let frame := json_dumps (JObj subscription_dict) in
      if send_succeeds ws network_ok then
        (c, [WsSend frame; Log INFO "Unsubscribed from "], Returned)
      else
        (set_websocket c (Some WsClosed),
         [WsSend frame; Log ERROR "Unsubscribe error: "; WsClose], Returned)
  end.

(** [disconnect] (lines 164-168): the attribute [websocket] keeps the
    connection object, now closed. *)
Definition disconnect (c : PolymarketWSClient) : PolymarketWSClient * list event :=
  let c1 := set_running c false in
  match websocket c1 with
  | Some _ => (set_websocket c1 (Some WsClosed), [WsClose])
  | None => (c1, [])
  end.

(** How the iteration over an established connection ends: the peer
    closes it and the iteration finishes; the iteration raises (the
    connection broke); or [disconnect] is called from another task, which
    closes the connection, and the iteration finishes. *)
Inductive session_end : Type :=
| PeerClosed
| ReceiveRaised
| Disconnected.

(** What the network and the user do during one pass of the loop of
    [connect]: opening the connection raises, or it is established, yields
    [messages] and ends. *)
Inductive attempt : Type :=
| ConnectRaised
| Established (messages : list string) (ending : session_end).

(** The handler of the outer [try] of [connect]: log, then leave the loop
    or sleep.  The flag says whether the loop is left. *)
Definition connection_error (c : PolymarketWSClient) : list event * bool :=
  if auto_reconnect c then ([Log ERROR "Connection error: "; Sleep 5], false)
  else ([Log ERROR "Connection error: "], true).

(** One pass of the [while True] of [connect] (lines 59-102).  The
    attribute [websocket] is set when the connection is established and
    never reset; leaving the [async with] block closes the connection.  An
    exception of the connect hook leaves the block and reaches the outer
    handler; an exception of the iteration is caught by the inner one. *)
Definition connect_once (c : PolymarketWSClient) (a : attempt)
  : PolymarketWSClient * list event * bool :=
  match a with
  | ConnectRaised =>
      let (handler, leave) := connection_error c in
      (c, (WsConnect (host c) :: handler)%list, leave)
  | Established messages ending =>
      let c1 := set_running (set_websocket c (Some WsOpen)) true in
      let opened := [WsConnect (host c); Log INFO "Connected to "] in
      match on_connect_callback c1 with
      | Some Raises =>
          let (handler, leave) := connection_error c1 in
          (set_websocket c1 (Some WsClosed),
           (opened ++ [OnConnect; WsClose] ++ handler)%list, leave)
      | hook =>
          let called := match hook with Some _ => [OnConnect] | None => [] end in
          let c2 := set_ping_task c1 (Some TaskRunning) in
          let received := _message_loop c2 messages in
          let (c3, ended) :=
            match ending with
            | PeerClosed => (c2, [])
            | ReceiveRaised => (c2, [Log ERROR "Message loop error: "])
            | Disconnected => disconnect c2
            end in
          (set_websocket (set_ping_task c3 (Some TaskCancelled)) (Some WsClosed),
           (opened ++ called ++ PingTaskCreate :: received ++ ended
              ++ [PingTaskCancel; WsClose])%list,
           negb (auto_reconnect c3))
      end
  end.

(** [connect], run against a script of attempts.  The flag of the result
    says whether the coroutine returned; when it is [false] the script ran
    out and the loop is about to open the next connection. *)
Fixpoint connect (c : PolymarketWSClient) (script : list attempt)
  : PolymarketWSClient * list event * bool :=
  match script with
  | [] => (c, [], false)
  | a :: rest =>
      let '(c1, events, leave) := connect_once c a in
      if leave then (c1, events, true)
      else
        let '(c2, later, returned) := connect c1 rest in
        (c2, (events ++ later)%list, returned)
  end.

(** [run] (lines 202-204): the event loop runs [connect] until it
    returns. *)
Definition run (c : PolymarketWSClient) (script : list attempt)
  : PolymarketWSClient * list event * bool :=
  connect c script.

End Client.

(** *** The ping task *)

(** The events of the ping task: a call of [ping()] on the websocket, a
    sleep, a log record. *)
Inductive keepalive_event : Type :=
| WsPing
| KeepaliveSleep (seconds : spec_float)
| KeepaliveLog (lvl : level) (text : string).

(** [await self.websocket.ping()]: like [send], it raises on a closed
    connection and when the network fails. *)
Definition ping_succeeds (c : PolymarketWSClient) (network_ok : bool) : bool :=
  match websocket c with
  | Some ws => send_succeeds ws network_ok
  | None => false
  end.

(** [_ping_loop] (lines 104-112).  The task shares the client with
    [connect] and [disconnect], which run between its turns: each turn of
    the loop is given the client as it is when the condition is tested, and
    whether the network lets the ping through.  [ping_interval] is the
    attribute, in seconds.  The flag of the result says whether the
    coroutine returned; when the turns run out first, the task was
    cancelled in its sleep. *)
Fixpoint _ping_loop (ping_interval : spec_float) (turns : list (PolymarketWSClient * bool))
  : list keepalive_event * bool :=
  match turns with
  | [] => ([], false)
  | (c, network_ok) :: rest =>
      if running c then
        if ping_succeeds c network_ok then
          let (later, returned) := _ping_loop ping_interval rest in
          (WsPing :: KeepaliveSleep ping_interval :: later, returned)
        else ([WsPing; KeepaliveLog ERROR "Ping error: "], true)
      else ([], true)
  end.

(** *** The TLS context of [connect] *)

(** [ssl.SSLContext], as far as [connect] configures it. *)
Inductive VerifyMode : Type := CERT_NONE | CERT_OPTIONAL | CERT_REQUIRED.

Record SSLContext : Type := {
  check_hostname : bool;
  verify_mode : VerifyMode;
  verify_locations : list string
}.

(** [ssl.create_default_context()] *)
Definition create_default_context : SSLContext :=
  {| check_hostname := true; verify_mode := CERT_REQUIRED; verify_locations := [] |}.

(** [ctx.load_verify_locations(cafile)] *)
Definition load_verify_locations (ctx : SSLContext) (cafile : string) : SSLContext :=
  {| check_hostname := check_hostname ctx; verify_mode := verify_mode ctx;
     verify_locations := (verify_locations ctx ++ [cafile])%list |}.

(** [ctx.check_hostname = b]: setting it on a context that verifies
    nothing turns the verification on. *)
Definition set_check_hostname (ctx : SSLContext) (b : bool) : SSLContext :=
  {| check_hostname := b;
     verify_mode := match verify_mode ctx with
                    | CERT_NONE => if b then CERT_REQUIRED else CERT_NONE
                    | mode => mode
                    end;
     verify_locations := verify_locations ctx |}.

(** [ctx.verify_mode = mode]: a [ValueError] when [mode] is [CERT_NONE]
    and [check_hostname] is set. *)
Definition set_verify_mode (ctx : SSLContext) (mode : VerifyMode) : option SSLContext :=
  match mode with
  | CERT_NONE =>
      if check_hostname ctx then None
      else Some {| check_hostname := false; verify_mode := CERT_NONE;
                   verify_locations := verify_locations ctx |}
  | _ => Some {| check_hostname := check_hostname ctx; verify_mode := mode;
                 verify_locations := verify_locations ctx |}
  end.

(** [s.startswith(p)] *)
Definition startswith (s p : string) : bool := String.prefix p s.

(** The head of the loop of [connect] (lines 61-69): the value passed as
    [ssl=], or [None] at the outside when an assignment raises.  [cafile]
    is [certifi.where()]. *)
Definition ssl_context_for (host : string) (ssl_verify : bool) (cafile : string)
  : option (option SSLContext) :=
  if startswith host "wss://" then
    let ssl_context := create_default_context in
    if ssl_verify then Some (Some (load_verify_locations ssl_context cafile))
    else
      match set_verify_mode (set_check_hostname ssl_context false) CERT_NONE with
      | Some ssl_context' => Some (Some ssl_context')
      | None => None
      end
  else Some None.

(** ** Vocabulary of the statements *)

(** Induction over [json] that reaches the values inside arrays and
    objects. *)
Section JsonInduction.
Variable P : json -> Prop.
Hypothesis Hnull : P JNull.
Hypothesis Hbool : forall b, P (JBool b).
Hypothesis Hinteger : forall z, P (JInt z).
Hypothesis Hfloat : forall f, P (JFloat f).
Hypothesis Hstr : forall s, P (JStr s).
Hypothesis Harr : forall items, Forall P items -> P (JArr items).
Hypothesis Hobj : forall members, Forall (fun kv => P (snd kv)) members -> P (JObj members).

Fixpoint json_ind (v : json) : P v :=
  match v with
  | JNull => Hnull
  | JBool b => Hbool b
  | JInt z => Hinteger z
  | JFloat f => Hfloat f
  | JStr s => Hstr s
  | JArr items =>
      Harr items
        ((fix all (l : list json) : Forall P l :=
            match l with
            | [] => Forall_nil P
            | x :: l' => Forall_cons x (json_ind x) (all l')
            end) items)
  | JObj members =>
      Hobj members
        ((fix all (l : list (string * json)) : Forall (fun kv => P (snd kv)) l :=
            match l with
            | [] => Forall_nil _
            | kv :: l' => Forall_cons kv (json_ind (snd kv)) (all l')
            end) members)
  end.
End JsonInduction.

Fixpoint distinct (keys : list string) : bool :=
  match keys with
  | [] => true
  | k :: keys' => negb (existsb (String.eqb k) keys') && distinct keys'
  end.

(** The values without a float, whose dicts have pairwise distinct keys
    (as every Python dict has). *)
Fixpoint float_free (v : json) : bool :=
  match v with
  | JNull | JBool _ | JInt _ | JStr _ => true
  | JFloat _ => false
  | JArr items => forallb float_free items
  | JObj members =>
      distinct (map fst members) && forallb (fun kv => float_free (snd kv)) members
  end.

(** Fuel that is enough for [parse_value] to read the text of a value. *)
Fixpoint size (v : json) : nat :=
  match v with
  | JArr items => S (list_sum (map (fun x => S (size x)) items))
  | JObj members => S (list_sum (map (fun kv => S (size (snd kv))) members))
  | _ => 1
  end.

Definition member_text (float_repr : spec_float -> string) (kv : string * json) : string :=
  quote (fst kv) ++ ": " ++ dumps float_repr (snd kv).

(** The first character of the text of a value is no blank and closes no
    bracket. *)
Definition opens_value (s : string) : Prop :=
  match s with
  | String c _ => is_ws c = false /\ Ascii.eqb c "]" = false /\ Ascii.eqb c "}" = false
  | EmptyString => False
  end.

(** The text after a number does not go on as a number. *)
Definition delimited (rest : string) : bool :=
  match rest with
  | String c _ => negb (is_digit c) && negb (starts_fraction_or_exponent rest)
  | EmptyString => true
  end.

(** The number a sequence of decimal digits denotes, read after [acc]. *)
Fixpoint accumulate (d : Decimal.uint) (acc : N) : N :=
  match d with
  | Decimal.Nil => acc
  | Decimal.D0 l => accumulate l (acc * 10 + 0)
  | Decimal.D1 l => accumulate l (acc * 10 + 1)
  | Decimal.D2 l => accumulate l (acc * 10 + 2)
  | Decimal.D3 l => accumulate l (acc * 10 + 3)
  | Decimal.D4 l => accumulate l (acc * 10 + 4)
  | Decimal.D5 l => accumulate l (acc * 10 + 5)
  | Decimal.D6 l => accumulate l (acc * 10 + 6)
  | Decimal.D7 l => accumulate l (acc * 10 + 7)
  | Decimal.D8 l => accumulate l (acc * 10 + 8)
  | Decimal.D9 l => accumulate l (acc * 10 + 9)
  end%N.

Definition round_trips (float_repr : spec_float -> string) (v : json) : Prop :=
  float_free v = true ->
  forall fuel rest, size v <= fuel -> delimited rest = true ->
    parse_value fuel (dumps float_repr v ++ rest) = Some (v, rest).

(** The pairs the resolution table lists. *)
Definition in_table (topic payload_type : json) : Prop :=
  (topic = JStr "activity" /\ payload_type = JStr "trades")
  \/ (topic = JStr "comments"
      /\ (payload_type = JStr "comment_created" \/ payload_type = JStr "comment_removed"
          \/ payload_type = JStr "reaction_created" \/ payload_type = JStr "reaction_removed")).

(** The pair is in the table and the model it names refuses [kwargs]. *)
Definition structured_decode_fails {R : PyRuntime} (topic payload_type : string)
  (kwargs : dict) : Prop :=
  (topic = "activity" /\ payload_type = "trades" /\ Trade.init kwargs = None)
  \/ (topic = "comments"
      /\ (payload_type = "comment_created" \/ payload_type = "comment_removed")
      /\ Comment.init kwargs = None)
  \/ (topic = "comments"
      /\ (payload_type = "reaction_created" \/ payload_type = "reaction_removed")
      /\ Reaction.init kwargs = None).

Definition is_on_connect (e : event) : bool :=
  match e with OnConnect => true | _ => false end.

Definition is_on_message (e : event) : bool :=
  match e with OnMessage _ => true | _ => false end.

(** What [_parse_payload] answers when the model refuses the payload or
    the payload cannot be unpacked. *)
Definition fell_back (payload : json) : PayloadType * list event :=
  (Raw payload, [Log WARNING "Failed to parse payload: "]).

(** The events of one pass over an established connection. *)
Definition session_events {R : PyRuntime} (c : PolymarketWSClient) (messages : list string)
  (ending : session_end) : list event :=
  snd (fst (connect_once c (Established messages ending))).

(** The passes of the loop of [connect] over a script: each attempt that
    is reached, with the events of its pass. *)
Fixpoint passes {R : PyRuntime} (c : PolymarketWSClient) (script : list attempt)
  : list (attempt * list event) :=
  match script with
  | [] => []
  | a :: rest =>
      let '(c1, events, leave) := connect_once c a in
      (a, events) :: (if leave then [] else passes c1 rest)
  end.

(** The connect hook is called once, and before every call of the message
    hook. *)
Definition connect_hook_first (events : list event) : Prop :=
  List.length (filter is_on_connect events) = 1
  /\ forall before msg after,
       events = (before ++ OnMessage msg :: after)%list -> In OnConnect before.

(** A pass that establishes a connection calls the connect hook first; a
    pass whose connection is not established calls no hook. *)
Definition pass_ok (pass : attempt * list event) : Prop :=
  match fst pass with
  | Established _ _ => connect_hook_first (snd pass)
  | ConnectRaised =>
      filter is_on_connect (snd pass) = [] /\ filter is_on_message (snd pass) = []
  end.

(** The decoded entry has the five fields of the subscription, each with
    the value the subscription holds ([None] as [JNull], credentials as the
    dict of their fields). *)
Definition same_fields (entry : json) (s : Subscription.t) : Prop :=
  exists d,
    entry = JObj d
    /\ dict_get d "topic" = Some (JStr (Subscription.topic s))
    /\ dict_get d "type" = Some (JStr (Subscription.type s))
    /\ dict_get d "filters" = Some (dump_optional JStr (Subscription.filters s))
    /\ dict_get d "clob_auth"
       = Some (dump_optional ClobApiKeyCreds.model_dump (Subscription.clob_auth s))
    /\ dict_get d "gamma_auth"
       = Some (dump_optional GammaAuth.model_dump (Subscription.gamma_auth s)).

(** The frame [subscribe] and [unsubscribe] build for [action]. *)
Definition subscription_frame {R : PyRuntime} (action : string) (msg : SubscriptionMessage.t)
  : string :=
  json_dumps (JObj (dict_update [("action", JStr action)] (SubscriptionMessage.model_dump msg))).

(** The pair is in the table and the model it names accepts [kwargs]. *)
Definition structured_decode_succeeds {R : PyRuntime} (topic payload_type : string)
  (kwargs : dict) : Prop :=
  (topic = "activity" /\ payload_type = "trades" /\ Trade.init kwargs <> None)
  \/ (topic = "comments"
      /\ (payload_type = "comment_created" \/ payload_type = "comment_removed")
      /\ Comment.init kwargs <> None)
  \/ (topic = "comments"
      /\ (payload_type = "reaction_created" \/ payload_type = "reaction_removed")
      /\ Reaction.init kwargs <> None).

(** The events the handling of a frame consists of: log records and calls
    of the message hook. *)
Definition is_log_or_delivery (e : event) : bool :=
  match e with Log _ _ | OnMessage _ => true | _ => false end.

Definition is_ws_connect (e : event) : bool :=
  match e with WsConnect _ => true | _ => false end.

Definition is_sleep (e : event) : bool :=
  match e with Sleep _ => true | _ => false end.

Definition is_ping_task_create (e : event) : bool :=
  match e with PingTaskCreate => true | _ => false end.

(** Follows the ping tasks along a trace.  [alive] says whether a task
    that was created has not been cancelled yet; the answer is the same
    flag at the end of the trace, or [None] when a connection is opened or
    a task is created while an earlier task is alive. *)
Fixpoint keepalive_tasks (alive : bool) (events : list event) : option bool :=
  match events with
  | [] => Some alive
  | WsConnect _ :: rest => if alive then None else keepalive_tasks false rest
  | PingTaskCreate :: rest => if alive then None else keepalive_tasks true rest
  | PingTaskCancel :: rest => keepalive_tasks false rest
  | _ :: rest => keepalive_tasks alive rest
  end.

(** Every sleep of the trace lasts 5 seconds and comes right after the
    record of a connection error. *)
Definition delays_follow_connection_errors (events : list event) : Prop :=
  forall before seconds after,
    events = (before ++ Sleep seconds :: after)%list ->
    seconds = 5%Z
    /\ exists earlier, before = (earlier ++ [Log ERROR "Connection error: "])%list.


(** Two dicts of keyword arguments that give the same value, or none, to
    each of [names]. *)
Definition agree_on (names : list string) (d1 d2 : dict) : Prop :=
  forall k, In k names -> dict_get d1 k = dict_get d2 k.

(** ** Sample data *)

(** 0.5, as 1 * 2^-1 *)
Definition half : spec_float := S754_finite false 1 (-1).

Definition sample_trade : dict :=
  [("asset", JStr "0x1"); ("bio", JStr ""); ("conditionId", JStr "0xc0");
   ("eventSlug", JStr "event"); ("icon", JStr "icon.png"); ("name", JStr "alice");
   ("outcome", JStr "Yes"); ("outcomeIndex", JInt 0); ("price", JFloat half);
   ("profileImage", JStr "alice.png"); ("proxyWallet", JStr "0xa1");
   ("pseudonym", JStr "Alice"); ("side", JStr "BUY"); ("size", JInt 10);
   ("slug", JStr "market"); ("timestamp", JInt 1700000000); ("title", JStr "Market");
   ("transactionHash", JStr "0xf0")].

(** [sample_trade] without its ["asset"]. *)
Definition trade_without_asset : dict := tl sample_trade.

Definition sample_client : PolymarketWSClient :=
  new_client (Some Returns) (Some (fun _ => Returns)) DEFAULT_HOST true.

Definition connected_client : PolymarketWSClient :=
  set_running (set_websocket sample_client (Some WsOpen)) true.

(** A trade frame whose payload lacks most of the fields of [Trade]. *)
Definition partial_trade : dict := [("side", JStr "BUY"); ("size", JInt 10)].

Definition frame_partial_trade : dict :=
  [("topic", JStr "activity"); ("type", JStr "trades"); ("timestamp", JInt 1700000000);
   ("payload", JObj partial_trade)].

Definition frame_null_timestamp : dict :=
  [("topic", JStr "activity"); ("type", JStr "trades"); ("timestamp", JNull);
   ("payload", JObj partial_trade)].

Definition frame_text_payload : dict :=
  [("topic", JStr "activity"); ("type", JStr "trades"); ("payload", JStr "oops")].

Definition frame_bare : dict := [("payload", JObj [("asset", JStr "0x1")])].

(** The text of a frame that carries [data]. *)
Definition text_of (data : dict) : string := @json_dumps reference_runtime (JObj data).

Definition sample_subscriptions : SubscriptionMessage.t :=
  {| SubscriptionMessage.subscriptions :=
       [ {| Subscription.topic := "activity"; Subscription.type := "trades";
            Subscription.filters := None; Subscription.clob_auth := None;
            Subscription.gamma_auth := None |};
         {| Subscription.topic := "comments"; Subscription.type := "comment_created";
            Subscription.filters := Some "event=1";
            Subscription.clob_auth :=
              Some {| ClobApiKeyCreds.key := "k"; ClobApiKeyCreds.secret := "s";
                      ClobApiKeyCreds.passphrase := "p" |};
            Subscription.gamma_auth := Some {| GammaAuth.address := "0xabc" |} |} ] |}.

Definition sample_trade_record : Trade.t :=
  {| Trade.asset := "0x1"; Trade.bio := ""; Trade.conditionId := "0xc0";
     Trade.eventSlug := "event"; Trade.icon := "icon.png"; Trade.name := "alice";
     Trade.outcome := "Yes"; Trade.outcomeIndex := 0; Trade.price := half;
     Trade.profileImage := "alice.png"; Trade.profileImageOptimized := None;
     Trade.proxyWallet := "0xa1"; Trade.pseudonym := "Alice"; Trade.side := Trade.BUY;
     Trade.size := 10; Trade.slug := "market"; Trade.timestamp := 1700000000;
     Trade.title := "Market"; Trade.transactionHash := "0xf0" |}.

Definition raw_message (topic type : string) (timestamp : Z) (payload : dict) : Message.t :=
  {| Message.topic := topic; Message.type := type; Message.timestamp := timestamp;
     Message.payload := payload |}.

(** A frame that carries no payload. *)
Definition frame_control : dict := [("topic", JStr "activity"); ("type", JStr "subscribed")].

Definition sample_reaction : dict :=
  [("id", JStr "r1"); ("commentID", JInt 7); ("reactionType", JStr "like");
   ("icon", JStr "heart"); ("userAddress", JStr "0xa1");
   ("createdAt", JStr "2024-01-01T00:00:00Z")].

Definition frame_reaction : dict :=
  [("topic", JStr "comments"); ("type", JStr "reaction_created");
   ("timestamp", JInt 1700000000); ("payload", JObj sample_reaction)].

(** A top-level comment: its [parentCommentID] is [None]. *)
Definition sample_comment : dict :=
  [("id", JStr "c1"); ("body", JStr "hello"); ("parentEntityType", JStr "Event");
   ("parentEntityID", JInt 42); ("parentCommentID", JNull); ("userAddress", JStr "0xa1");
   ("replyAddress", JStr "0xb2"); ("createdAt", JStr "2024-01-01T00:00:00Z");
   ("updatedAt", JStr "2024-01-01T00:00:00Z")].

Definition sample_comment_record : Comment.t :=
  {| Comment.id := "c1"; Comment.body := "hello"; Comment.parentEntityType := Comment.Event;
     Comment.parentEntityID := 42; Comment.parentCommentID := None;
     Comment.userAddress := "0xa1"; Comment.replyAddress := Some "0xb2";
     Comment.createdAt := "2024-01-01T00:00:00Z";
     Comment.updatedAt := "2024-01-01T00:00:00Z" |}.

(** [sample_trade] with its keys in the reverse order, after a key that
    [Trade] does not declare. *)
Definition trade_with_fee : dict := ("fee", JInt 1) :: rev sample_trade.

Definition single_shot_client : PolymarketWSClient :=
  new_client (Some Returns) (Some (fun _ => Returns)) DEFAULT_HOST false.

Definition client_with_raising_hook : PolymarketWSClient :=
  new_client (Some Raises) (Some (fun _ => Returns)) DEFAULT_HOST true.

Definition client_with_raising_message_hook : PolymarketWSClient :=
  new_client (Some Returns) (Some (fun _ => Raises)) DEFAULT_HOST true.

(** 5.0, the interval [__init__] computes from the default of 5000
    milliseconds. *)
Definition five_seconds : spec_float := S754_finite false 5 0.

(** * Properties *)

(** ** [json.dumps] followed by the reference decoder *)

Lemma append_assoc (a b c : string) : (a ++ b) ++ c = a ++ (b ++ c).
Proof. induction a as [|x a IH]; simpl; [reflexivity | now rewrite IH]. Qed.

Lemma append_nil_r (s : string) : s ++ "" = s.
Proof. induction s as [|c s IH]; simpl; [reflexivity | now rewrite IH]. Qed.

Lemma length_append (a b : string) :
  String.length (a ++ b) = String.length a + String.length b.
Proof. induction a as [|x a IH]; simpl; [reflexivity | now rewrite IH]. Qed.

(** *** Strings *)

Lemma scanstring_escape_char (c : ascii) (t : string) :
  scanstring (escape_char c ++ t) = cons_char c (scanstring t).
Proof.
  destruct c as [[] [] [] [] [] [] [] []]; reflexivity.
Qed.

Lemma scanstring_escape_string (s rest : string) :
  scanstring (escape_string s ++ String dquote rest) = Some (s, rest).
Proof.
  induction s as [|c s IH]; simpl.
  - reflexivity.
  - rewrite append_assoc, scanstring_escape_char, IH. reflexivity.
Qed.

Lemma quote_app k tail :
  quote k ++ tail = String dquote (escape_string k ++ String dquote tail).
Proof. unfold quote. simpl. now rewrite append_assoc. Qed.

(** *** Integers *)

Lemma scan_digits_delimited acc rest :
  delimited rest = true -> scan_digits acc rest = (acc, rest).
Proof.
  destruct rest as [|c rest]; simpl; [reflexivity|].
  intros H. apply andb_prop in H as [H _]. apply negb_true_iff in H. now rewrite H.
Qed.

Lemma scan_digits_text d acc rest :
  delimited rest = true ->
  scan_digits acc (NilEmpty.string_of_uint d ++ rest) = (accumulate d acc, rest).
Proof.
  intros Hrest. revert acc.
  induction d; intros acc; simpl; try apply IHd.
  now apply scan_digits_delimited.
Qed.

Lemma accumulate_pos d acc :
  accumulate d (Npos acc) = Npos (Pos.of_uint_acc d acc).
Proof.
  revert acc. induction d; intros acc; cbn [accumulate Pos.of_uint_acc]; try reflexivity;
    rewrite <- IHd; f_equal; lia.
Qed.

Lemma accumulate_of_uint d : accumulate d 0 = Pos.of_uint d.
Proof.
  induction d; simpl; try reflexivity; try assumption; apply accumulate_pos.
Qed.

Lemma to_uint_head p l : Pos.to_uint p <> Decimal.D0 l.
Proof.
  intros E.
  assert (Hnorm : Decimal.unorm (Pos.to_uint p) = Pos.to_uint p).
  { rewrite <- (DecimalPos.Unsigned.to_of (Pos.to_uint p)), DecimalPos.Unsigned.of_to.
    reflexivity. }
  rewrite E in Hnorm. unfold Decimal.unorm in Hnorm.
  destruct (Decimal.nzhead (Decimal.D0 l)) eqn:Hz;
    try (now apply (nzhead_nonzero (Decimal.D0 l) l); rewrite Hz).
  injection Hnorm as <-. now apply (DecimalPos.Unsigned.to_uint_nonzero p).
Qed.

Lemma scan_number_pos p neg rest :
  delimited rest = true ->
  scan_number ((if neg : bool then "-" else "") ++ NilEmpty.string_of_uint (Pos.to_uint p) ++ rest)
  = Some (JInt (if neg then Zneg p else Zpos p), rest).
Proof.
  intros Hrest.
  assert (Hvalue : scan_digits 0 (NilEmpty.string_of_uint (Pos.to_uint p) ++ rest)
                   = (Npos p, rest)).
  { rewrite scan_digits_text by assumption.
    now rewrite accumulate_of_uint, DecimalPos.Unsigned.of_to. }
  assert (Hstart : starts_fraction_or_exponent rest = false).
  { destruct rest as [|c rest]; [reflexivity|]. simpl in Hrest.
    apply andb_prop in Hrest as [_ H]. now apply negb_true_iff in H. }
  pose proof (to_uint_head p) as Hhead. pose proof (DecimalPos.Unsigned.to_uint_nonnil p) as Hnil.
  unfold scan_number.
  destruct (Pos.to_uint p) as [|l|l|l|l|l|l|l|l|l|l] eqn:E;
    [congruence | now elim (Hhead l) | ..];
    destruct neg; simpl in *; rewrite Hvalue, Hstart; reflexivity.
Qed.

Lemma int_repr_cases z :
  (z = 0%Z /\ int_repr z = "0")
  \/ (exists p, z = Zpos p /\ int_repr z = NilEmpty.string_of_uint (Pos.to_uint p))
  \/ (exists p, z = Zneg p /\ int_repr z = "-" ++ NilEmpty.string_of_uint (Pos.to_uint p)).
Proof.
  destruct z as [|p|p]; [left; now split | right; left | right; right]; exists p;
    (split; [reflexivity|]); unfold int_repr; simpl;
    pose proof (DecimalPos.Unsigned.to_uint_nonnil p); now destruct (Pos.to_uint p).
Qed.

Lemma scan_number_int_repr z rest :
  delimited rest = true -> scan_number (int_repr z ++ rest) = Some (JInt z, rest).
Proof.
  intros Hrest.
  destruct (int_repr_cases z) as [[-> ->] | [(p & -> & ->) | (p & -> & ->)]].
  - simpl. destruct rest as [|c rest]; [reflexivity|]. simpl in Hrest.
    apply andb_prop in Hrest as [_ H]. apply negb_true_iff in H. simpl in H.
    unfold scan_number. simpl. now rewrite H.
  - apply (scan_number_pos p false rest Hrest).
  - rewrite append_assoc. apply (scan_number_pos p true rest Hrest).
Qed.

(** The text of an integer starts with its sign or a digit. *)
Lemma int_repr_head z rest :
  exists c t,
    int_repr z ++ rest = String c t
    /\ (c = "-"%char \/ is_digit c = true).
Proof.
  destruct (int_repr_cases z) as [[-> ->] | [(p & -> & ->) | (p & -> & ->)]].
  - exists "0"%char, rest. split; [reflexivity | now right].
  - pose proof (DecimalPos.Unsigned.to_uint_nonnil p) as Hnil.
    destruct (Pos.to_uint p); [congruence | ..]; simpl;
      eexists; eexists; (split; [reflexivity | now right]).
  - exists "-"%char. eexists. split; [reflexivity | now left].
Qed.

Lemma parse_value_int_repr z fuel rest :
  delimited rest = true ->
  parse_value (S fuel) (int_repr z ++ rest) = Some (JInt z, rest).
Proof.
  intros Hrest.
  rewrite <- (scan_number_int_repr z rest Hrest).
  destruct (int_repr_cases z) as [[-> ->] | [(p & -> & ->) | (p & -> & ->)]].
  - reflexivity.
  - pose proof (DecimalPos.Unsigned.to_uint_nonnil p) as Hnil.
    destruct (Pos.to_uint p); [congruence | ..]; reflexivity.
  - pose proof (DecimalPos.Unsigned.to_uint_nonnil p) as Hnil.
    destruct (Pos.to_uint p); [congruence | ..]; reflexivity.
Qed.

(** *** Arrays, objects and values *)

Section RoundTrip.
Variable float_repr : spec_float -> string.

Lemma dumps_JArr items :
  dumps float_repr (JArr items)
  = "[" ++ String.concat ", " (map (dumps float_repr) items) ++ "]".
Proof. reflexivity. Qed.

Lemma dumps_JObj members :
  dumps float_repr (JObj members)
  = "{" ++ String.concat ", " (map (member_text float_repr) members) ++ "}".
Proof. reflexivity. Qed.

Lemma dumps_opens_value v rest :
  float_free v = true -> opens_value (dumps float_repr v ++ rest).
Proof.
  destruct v as [|[]|z| | | |]; simpl; intros H; try discriminate; try (repeat split).
  destruct (int_repr_head z rest) as (c & t & -> & [-> | Hc]); [repeat split|].
  unfold opens_value, is_ws. unfold is_digit in Hc.
  destruct c as [[] [] [] [] [] [] [] []]; try discriminate Hc; repeat split.
Qed.

Lemma skip_ws_opens_value s : opens_value s -> skip_ws s = s.
Proof.
  destruct s as [|c s]; simpl; [easy|]. intros (Hc & _). now rewrite Hc.
Qed.

Lemma concat_opens_value items rest closing :
  forallb float_free items = true -> items <> [] ->
  opens_value (String.concat ", " (map (dumps float_repr) items) ++ String closing rest).
Proof.
  destruct items as [|v [|w items]]; [congruence | ..]; simpl; intros H _;
    apply andb_prop in H as [Hv _].
  - now apply dumps_opens_value.
  - rewrite append_assoc. now apply dumps_opens_value.
Qed.

Lemma parse_items_dumps items :
  Forall (round_trips float_repr) items -> forallb float_free items = true -> items <> [] ->
  forall fuel rest, list_sum (map (fun x => S (size x)) items) <= fuel ->
    parse_items fuel (String.concat ", " (map (dumps float_repr) items) ++ String "]" rest)
    = Some (items, rest).
Proof.
  induction 1 as [|v items Hv Hitems IH]; [congruence|].
  simpl forallb. intros Hfree _ fuel rest Hfuel.
  apply andb_prop in Hfree as [Hfv Hfitems].
  simpl in Hfuel. destruct fuel as [|fuel]; [lia|].
  destruct items as [|w items].
  - simpl. rewrite (Hv Hfv) by (lia || reflexivity). reflexivity.
  - specialize (IH Hfitems ltac:(discriminate) fuel rest ltac:(simpl in *; lia)).
    pose proof (concat_opens_value (w :: items) rest "]" Hfitems ltac:(discriminate)) as Hopen.
    change (String.concat ", " (map (dumps float_repr) (v :: w :: items)))
      with (dumps float_repr v ++ ", "
            ++ String.concat ", " (map (dumps float_repr) (w :: items))).
    remember (String.concat ", " (map (dumps float_repr) (w :: items))) as later.
    simpl parse_items. rewrite !append_assoc. rewrite (Hv Hfv) by (lia || reflexivity).
    simpl. rewrite skip_ws_opens_value by assumption.
    now rewrite IH.
Qed.

Lemma member_text_app kv tail :
  member_text float_repr kv ++ tail
  = String dquote (escape_string (fst kv)
      ++ String dquote (String ":" (String " " (dumps float_repr (snd kv) ++ tail)))).
Proof. unfold member_text. now rewrite !append_assoc, quote_app. Qed.

Lemma members_opens_value members rest :
  members <> [] ->
  opens_value (String.concat ", " (map (member_text float_repr) members) ++ String "}" rest).
Proof.
  destruct members as [|m [|m' members]]; [congruence | ..]; intros _; simpl; repeat split.
Qed.

Lemma parse_members_dumps members :
  Forall (fun kv => round_trips float_repr (snd kv)) members ->
  forallb (fun kv => float_free (snd kv)) members = true -> members <> [] ->
  forall fuel rest, list_sum (map (fun kv => S (size (snd kv))) members) <= fuel ->
    parse_members fuel
      (String.concat ", " (map (member_text float_repr) members) ++ String "}" rest)
    = Some (members, rest).
Proof.
  induction 1 as [|[k v] members Hv Hmembers IH]; [congruence|].
  simpl forallb. intros Hfree _ fuel rest Hfuel.
  apply andb_prop in Hfree as [Hfv Hfmembers].
  simpl in Hfuel, Hv, Hfv. destruct fuel as [|fuel]; [lia|].
  assert (Hvalue : forall tail, delimited tail = true ->
             parse_value fuel (skip_ws (dumps float_repr v ++ tail)) = Some (v, tail)).
  { intros tail Htail.
    rewrite skip_ws_opens_value by now apply dumps_opens_value.
    apply Hv; [assumption | lia | assumption]. }
  destruct members as [|m members].
  - simpl String.concat. rewrite member_text_app.
    simpl. rewrite scanstring_escape_string.
    simpl. rewrite Hvalue by reflexivity. reflexivity.
  - specialize (IH Hfmembers ltac:(discriminate) fuel rest ltac:(simpl in *; lia)).
    pose proof (members_opens_value (m :: members) rest ltac:(discriminate)) as Hopen.
    change (String.concat ", " (map (member_text float_repr) ((k, v) :: m :: members)))
      with (member_text float_repr (k, v) ++ ", "
            ++ String.concat ", " (map (member_text float_repr) (m :: members))).
    remember (String.concat ", " (map (member_text float_repr) (m :: members))) as later.
    rewrite append_assoc, member_text_app.
    simpl. rewrite scanstring_escape_string.
    simpl. rewrite Hvalue by reflexivity.
    simpl. rewrite skip_ws_opens_value by assumption.
    rewrite IH. reflexivity.
Qed.

Lemma dict_set_absent d k v :
  existsb (String.eqb k) (map fst d) = false -> dict_set d k v = (d ++ [(k, v)])%list.
Proof.
  induction d as [|[k' v'] d IH]; simpl; [reflexivity|].
  intros H. apply orb_false_elim in H as [Hk Hd]. rewrite Hk. now rewrite IH.
Qed.

Lemma dict_update_distinct d pairs :
  distinct (map fst pairs) = true ->
  (forall k, existsb (String.eqb k) (map fst pairs) = true ->
             existsb (String.eqb k) (map fst d) = false) ->
  dict_update d pairs = (d ++ pairs)%list.
Proof.
  revert d. induction pairs as [|[k v] pairs IH]; intros d Hdistinct Hfresh.
  - simpl. now rewrite List.app_nil_r.
  - simpl in Hdistinct. apply andb_prop in Hdistinct as [Hk Hpairs].
    apply negb_true_iff in Hk.
    unfold dict_update in *. simpl.
    rewrite dict_set_absent by (apply Hfresh; simpl; now rewrite String.eqb_refl).
    rewrite IH; [now rewrite <- List.app_assoc | assumption |].
    intros k' Hk'. rewrite map_app, existsb_app. simpl.
    rewrite (Hfresh k') by (simpl; rewrite Hk'; apply orb_true_r).
    destruct (String.eqb_spec k' k) as [->|]; [congruence | reflexivity].
Qed.

Lemma dict_of_pairs_distinct pairs :
  distinct (map fst pairs) = true -> dict_of_pairs pairs = pairs.
Proof.
  intros H. unfold dict_of_pairs. now rewrite dict_update_distinct.
Qed.

Lemma parse_value_dumps v : round_trips float_repr v.
Proof.
  induction v as [|b|z|f|s|items IH|members IH] using json_ind;
    intros Hfree fuel rest Hfuel Hrest; simpl in Hfree; try discriminate;
    (destruct fuel as [|fuel]; [simpl in Hfuel; lia|]).
  - reflexivity.
  - destruct b; reflexivity.
  - now apply parse_value_int_repr.
  - simpl dumps. rewrite quote_app. simpl. now rewrite scanstring_escape_string.
  - rewrite dumps_JArr. rewrite !append_assoc. simpl.
    destruct items as [|v items]; [reflexivity|].
    pose proof (concat_opens_value (v :: items) rest "]" Hfree ltac:(discriminate)) as Hopen.
    rewrite skip_ws_opens_value by assumption.
    destruct (String.concat ", " (map (dumps float_repr) (v :: items)) ++ String "]" rest)
      as [|c t] eqn:E; [contradiction|].
    destruct Hopen as (_ & -> & _).
    rewrite <- E, parse_items_dumps; [reflexivity | assumption | assumption | discriminate |].
    simpl in Hfuel. simpl. lia.
  - apply andb_prop in Hfree as [Hkeys Hfree].
    rewrite dumps_JObj. rewrite !append_assoc. simpl.
    destruct members as [|m members]; [reflexivity|].
    pose proof (members_opens_value (m :: members) rest ltac:(discriminate)) as Hopen.
    rewrite skip_ws_opens_value by assumption.
    destruct (String.concat ", " (map (member_text float_repr) (m :: members))
              ++ String "}" rest) as [|c t] eqn:E; [contradiction|].
    destruct Hopen as (_ & _ & ->).
    rewrite <- E, parse_members_dumps; [| assumption | assumption | discriminate |].
    + now rewrite dict_of_pairs_distinct.
    + simpl in Hfuel. simpl. lia.
Qed.

Lemma length_concat_items (texts : list string) (sizes : list nat) :
  Forall2 (fun n t => n <= String.length t) sizes texts ->
  list_sum (map S sizes) <= String.length (String.concat ", " texts) + 1.
Proof.
  induction 1 as [|n t sizes texts Hn Hrest IH]; simpl; [lia|].
  destruct texts as [|t' texts].
  - inversion Hrest; subst. simpl. lia.
  - rewrite !length_append. simpl String.length. simpl in IH.
    destruct sizes; [inversion Hrest|]. simpl in *. lia.
Qed.

Lemma size_le_length v :
  float_free v = true -> size v <= String.length (dumps float_repr v).
Proof.
  induction v as [|b|z|f|s|items IH|members IH] using json_ind;
    simpl float_free; intros Hfree; try discriminate.
  - simpl. lia.
  - destruct b; simpl; lia.
  - simpl. destruct (int_repr_head z "") as (c & t & E & _).
    rewrite append_nil_r in E. rewrite E. simpl. lia.
  - simpl. lia.
  - rewrite dumps_JArr, !length_append. simpl size. simpl String.length.
    assert (H : list_sum (map S (map size items))
                <= String.length (String.concat ", " (map (dumps float_repr) items)) + 1).
    { apply length_concat_items.
      induction IH as [|v items Hv _ IHitems]; simpl; constructor.
      - apply Hv. simpl in Hfree. now apply andb_prop in Hfree.
      - apply IHitems. simpl in Hfree. now apply andb_prop in Hfree. }
    rewrite map_map in H. lia.
  - apply andb_prop in Hfree as [_ Hfree].
    rewrite dumps_JObj, !length_append. simpl size. simpl String.length.
    assert (H : list_sum (map S (map (fun kv => size (snd kv)) members))
                <= String.length
                     (String.concat ", " (map (member_text float_repr) members)) + 1).
    { apply length_concat_items.
      induction IH as [|[k v] members Hv _ IHmembers]; simpl; constructor.
      - simpl in Hfree. apply andb_prop in Hfree as [Hfv _].
        unfold member_text. rewrite !length_append. simpl in *. specialize (Hv Hfv). lia.
      - apply IHmembers. simpl in Hfree. now apply andb_prop in Hfree. }
    rewrite map_map in H. lia.
Qed.

(** Decoding the text [json.dumps] writes for a value without a float gives
    the value back. *)
Lemma reference_loads_dumps v :
  float_free v = true -> reference_loads (dumps float_repr v) = Some v.
Proof.
  intros Hfree. unfold reference_loads.
  rewrite skip_ws_opens_value
    by (rewrite <- (append_nil_r (dumps float_repr v)); now apply dumps_opens_value).
  rewrite <- (append_nil_r (dumps float_repr v)) at 2.
  rewrite parse_value_dumps;
    [reflexivity | assumption | now apply size_le_length | reflexivity].
Qed.
End RoundTrip.

(** ** [_parse_payload] and the receive loop *)

Section ReceiveLoop.
Context {R : PyRuntime}.

Lemma py_eq_str_true v s : py_eq_str v s = true <-> v = JStr s.
Proof.
  destruct v; simpl; try (split; [discriminate | intros [=]]).
  rewrite String.eqb_eq. split; [now intros -> | now intros [= ->]].
Qed.

Lemma parse_payload_trade kwargs t :
  Trade.init kwargs = Some t ->
  _parse_payload (JStr "activity") (JStr "trades") (JObj kwargs) = (OfTrade t, []).
Proof. intros Ht. unfold _parse_payload. simpl. now rewrite Ht. Qed.

(** C6.  The shape [_parse_payload] resolves a payload to follows the
    table: the pair activity/trades gives the [Trade] the model constructs
    from the payload; comments/comment_created and comments/comment_removed
    give the [Comment]; comments/reaction_created and
    comments/reaction_removed give the [Reaction]; every pair that is not
    in the table gives the payload back as it came, with no warning. *)
Theorem parse_payload_table (payload : json) :
  (forall kwargs t,
      payload = JObj kwargs -> Trade.init kwargs = Some t ->
      _parse_payload (JStr "activity") (JStr "trades") payload = (OfTrade t, []))
  /\ (forall payload_type kwargs c,
         payload_type = "comment_created" \/ payload_type = "comment_removed" ->
         payload = JObj kwargs -> Comment.init kwargs = Some c ->
         _parse_payload (JStr "comments") (JStr payload_type) payload = (OfComment c, []))
  /\ (forall payload_type kwargs r,
         payload_type = "reaction_created" \/ payload_type = "reaction_removed" ->
         payload = JObj kwargs -> Reaction.init kwargs = Some r ->
         _parse_payload (JStr "comments") (JStr payload_type) payload = (OfReaction r, []))
  /\ (forall topic payload_type,
         ~ in_table topic payload_type ->
         _parse_payload topic payload_type payload = (Raw payload, [])).
Proof.
  repeat split.
  - intros kwargs t -> Ht. now apply parse_payload_trade.
  - intros ty kwargs c [-> | ->] -> Hc; unfold _parse_payload; simpl; now rewrite Hc.
  - intros ty kwargs r [-> | ->] -> Hr; unfold _parse_payload; simpl; now rewrite Hr.
  - intros topic ty Hout. unfold _parse_payload.
    destruct (py_eq_str topic "activity" && py_eq_str ty "trades") eqn:E1.
    { apply andb_prop in E1 as [H1 H2]. apply py_eq_str_true in H1, H2.
      exfalso. apply Hout. left. now split. }
    destruct (py_eq_str topic "comments") eqn:E2; [|reflexivity].
    apply py_eq_str_true in E2.
    destruct (py_in_strs ty ["comment_created"; "comment_removed"]) eqn:E3.
    { exfalso. apply Hout. right. split; [assumption|].
      unfold py_in_strs in E3. simpl in E3. rewrite orb_false_r in E3.
      apply orb_prop in E3 as [H | H]; apply py_eq_str_true in H; tauto. }
    destruct (py_in_strs ty ["reaction_created"; "reaction_removed"]) eqn:E4; [|reflexivity].
    exfalso. apply Hout. right. split; [assumption|].
    unfold py_in_strs in E4. simpl in E4. rewrite orb_false_r in E4.
    apply orb_prop in E4 as [H | H]; apply py_eq_str_true in H; tauto.
Qed.

Lemma parse_payload_fails topic payload_type kwargs :
  structured_decode_fails topic payload_type kwargs ->
  _parse_payload (JStr topic) (JStr payload_type) (JObj kwargs) = fell_back (JObj kwargs).
Proof.
  intros [(-> & -> & H) | [(-> & [-> | ->] & H) | (-> & [-> | ->] & H)]];
    unfold _parse_payload; simpl; now rewrite H.
Qed.

(** Whatever the pair, a payload that is no dict comes back as it is. *)
Lemma parse_payload_not_a_dict topic payload_type payload :
  (forall kwargs, payload <> JObj kwargs) ->
  _parse_payload topic payload_type payload = (Raw payload, [])
  \/ _parse_payload topic payload_type payload = fell_back payload.
Proof.
  intros Hnot. unfold _parse_payload.
  assert (Hun : unpack payload = None).
  { destruct payload; try reflexivity. now elim (Hnot members). }
  rewrite Hun.
  repeat match goal with |- context [if ?b then _ else _] => destruct b end; auto.
Qed.

Lemma Message_init_not_a_dict topic type timestamp payload :
  (forall kwargs, payload <> JObj kwargs) ->
  Message_init topic type timestamp (Raw payload) = None.
Proof.
  intros Hnot. unfold Message_init.
  destruct (validate_str topic); [|reflexivity].
  destruct (validate_str type); [|reflexivity].
  destruct (validate_int timestamp); [|reflexivity].
  destruct payload; try reflexivity. now elim (Hnot members).
Qed.

Lemma dict_contains_get d k v : dict_get d k = Some v -> dict_contains d k = true.
Proof. unfold dict_contains. now intros ->. Qed.

Lemma dict_get_default_get d k v default :
  dict_get d k = Some v -> dict_get_default d k default = v.
Proof. unfold dict_get_default. now intros ->. Qed.

Lemma dict_get_default_absent d k default :
  dict_get d k = None -> dict_get_default d k default = default.
Proof. unfold dict_get_default. now intros ->. Qed.

Lemma eqb_nonempty (message : string) : message <> "" -> (message =? "")%string = false.
Proof. intros H. now apply String.eqb_neq. Qed.

(** Runs [handle_message] up to the call of [_parse_payload], for a frame
    that is not empty and decodes to an object with a payload. *)
Ltac enter_data_frame Hne Hloads Hpayload :=
  unfold handle_message;
  rewrite (eqb_nonempty _ Hne), Hloads, (dict_contains_get _ _ _ Hpayload),
    ?(dict_get_default_get _ _ _ _ Hpayload).

(** The second scenario of the spec, at [_parse_payload]: without its
    ["asset"] the trade is refused and comes back as the raw map. *)
Example missing_asset_falls_back :
  _parse_payload (JStr "activity") (JStr "trades") (JObj trade_without_asset)
  = fell_back (JObj trade_without_asset).
Proof. reflexivity. Qed.

(** An envelope cannot hold an instance of a model. *)
Lemma Message_init_instance topic type timestamp payload :
  (forall v, payload <> Raw v) -> Message_init topic type timestamp payload = None.
Proof.
  intros Hnot. unfold Message_init.
  destruct (validate_str topic), (validate_str type), (validate_int timestamp);
    try reflexivity.
  destruct payload as [t|c|r|v]; try reflexivity. now elim (Hnot v).
Qed.

(** So a frame whose payload the model of its pair accepts is logged as an
    error and does not reach the message hook. *)
Lemma accepted_payload_is_not_delivered
  (c : PolymarketWSClient) (message : string) (data kwargs : dict) (t : Trade.t) :
  message <> "" ->
  json_loads message = Loaded (JObj data) ->
  dict_get data "topic" = Some (JStr "activity") ->
  dict_get data "type" = Some (JStr "trades") ->
  dict_get data "payload" = Some (JObj kwargs) ->
  Trade.init kwargs = Some t ->
  handle_message c message = [Log ERROR "Error processing message: "].
Proof.
  intros Hne Hloads Htopic Htype Hpayload Ht.
  enter_data_frame Hne Hloads Hpayload.
  rewrite (dict_get_default_get _ _ _ _ Htopic), (dict_get_default_get _ _ _ _ Htype).
  rewrite (parse_payload_trade _ _ Ht).
  rewrite Message_init_instance by discriminate. reflexivity.
Qed.

(** C1 (amended).  Take a frame that is not empty and decodes to an object
    whose topic and type are a pair of the table, whose payload is a
    key/value map, and whose timestamp is absent or a value the integer
    field of the envelope accepts.  If the model of the pair refuses the
    payload, a warning is logged and the message hook, when one is set, is
    called with the envelope that holds the raw map as its payload. *)
Theorem fallback_delivers_raw_map
  (c : PolymarketWSClient) (hook : Message.t -> hook_outcome)
  (message : string) (data kwargs : dict) (topic payload_type : string) (ts : Z) :
  message <> "" ->
  json_loads message = Loaded (JObj data) ->
  dict_get data "topic" = Some (JStr topic) ->
  dict_get data "type" = Some (JStr payload_type) ->
  dict_get data "payload" = Some (JObj kwargs) ->
  structured_decode_fails topic payload_type kwargs ->
  validate_int (dict_get_default data "timestamp" (JInt 0)) = Some ts ->
  on_message_callback c = Some hook ->
  let msg := {| Message.topic := topic; Message.type := payload_type;
                Message.timestamp := ts; Message.payload := kwargs |} in
  handle_message c message
  = Log WARNING "Failed to parse payload: " :: OnMessage msg ::
    match hook msg with
    | Returns => []
    | Raises => [Log ERROR "Error processing message: "]
    end.
Proof.
  intros Hne Hloads Htopic Htype Hpayload Hfails Hts Hhook msg.
  enter_data_frame Hne Hloads Hpayload.
  rewrite (dict_get_default_get _ _ _ _ Htopic), (dict_get_default_get _ _ _ _ Htype).
  rewrite (parse_payload_fails _ _ _ Hfails). unfold fell_back.
  unfold Message_init. simpl validate_str. rewrite Hts, Hhook. reflexivity.
Qed.

(** C2 (amended).  A frame for which [json.loads] raises [JSONDecodeError]
    adds to the trace of the receive loop one error record, or nothing
    when the frame is empty (the loop skips an empty frame before it
    decodes); no hook is called for it and the loop goes on with the
    frames that follow. *)
Theorem malformed_frame_is_discarded
  (c : PolymarketWSClient) (message : string) (rest : list string) :
  json_loads message = JSONDecodeError ->
  _message_loop c (message :: rest)
  = ((if (message =? "")%string then [] else [Log ERROR "Failed to parse message: "])
     ++ _message_loop c rest)%list.
Proof.
  intros Hloads. simpl. unfold handle_message. rewrite Hloads.
  now destruct (message =? "")%string.
Qed.

(** C10.  A frame that decodes to an object with a ["payload"] that is no
    key/value map is dropped: an error is logged (after the warning of
    [_parse_payload], when the pair is in the table) and the message hook
    is not called. *)
Theorem payload_that_is_no_map_is_dropped
  (c : PolymarketWSClient) (message : string) (data : dict) (payload : json) :
  message <> "" ->
  json_loads message = Loaded (JObj data) ->
  dict_get data "payload" = Some payload ->
  (forall kwargs, payload <> JObj kwargs) ->
  (handle_message c message = [Log ERROR "Error processing message: "]
   \/ handle_message c message
      = [Log WARNING "Failed to parse payload: "; Log ERROR "Error processing message: "])
  /\ filter is_on_message (handle_message c message) = [].
Proof.
  intros Hne Hloads Hpayload Hnot.
  assert (H : handle_message c message = [Log ERROR "Error processing message: "]
              \/ handle_message c message
                 = [Log WARNING "Failed to parse payload: ";
                    Log ERROR "Error processing message: "]).
  { enter_data_frame Hne Hloads Hpayload.
    destruct (parse_payload_not_a_dict (dict_get_default data "topic" (JStr ""))
                (dict_get_default data "type" (JStr "")) payload Hnot) as [-> | ->];
      unfold fell_back; rewrite (Message_init_not_a_dict _ _ _ _ Hnot); auto. }
  split; [exact H|]. destruct H as [-> | ->]; reflexivity.
Qed.

Lemma Message_init_fields topic type timestamp payload msg :
  Message_init topic type timestamp payload = Some msg ->
  validate_str topic = Some (Message.topic msg)
  /\ validate_str type = Some (Message.type msg)
  /\ validate_int timestamp = Some (Message.timestamp msg)
  /\ payload = Raw (JObj (Message.payload msg)).
Proof.
  unfold Message_init.
  destruct (validate_str topic) as [to|]; [|discriminate].
  destruct (validate_str type) as [ty|]; [|discriminate].
  destruct (validate_int timestamp) as [ts|]; [|discriminate].
  destruct payload as [| | |[| | | | | |d]]; try discriminate.
  now intros [= <-].
Qed.

(** What the message hook is given, when it is called. *)
Lemma delivered_message (c : PolymarketWSClient) (message : string) (msg : Message.t) :
  In (OnMessage msg) (handle_message c message) ->
  exists data,
    json_loads message = Loaded (JObj data)
    /\ exists parsed,
        Message_init (dict_get_default data "topic" (JStr ""))
          (dict_get_default data "type" (JStr ""))
          (dict_get_default data "timestamp" (JInt 0)) parsed = Some msg.
Proof.
  unfold handle_message.
  destruct (message =? "")%string; [intros []|].
  destruct (json_loads message) as [[| | | | | |data]| |];
    try (simpl; intros [H | []]; discriminate).
  destruct (dict_contains data "payload"); [|simpl; intros [H | []]; discriminate].
  destruct (_parse_payload _ _ _) as [parsed warnings] eqn:Hparsed.
  intros Hin. exists data. split; [reflexivity|]. exists parsed.
  apply in_app_or in Hin as [Hin | Hin].
  - exfalso. unfold _parse_payload in Hparsed.
    repeat match type of Hparsed with
           | context [if ?b then _ else _] => destruct b
           | context [match ?x with _ => _ end] => destruct x
           end;
      injection Hparsed as _ <-; simpl in Hin; try tauto;
      destruct Hin as [Hin | []]; discriminate.
  - destruct (Message_init _ _ _ parsed) as [m|];
      [|simpl in Hin; destruct Hin as [H | []]; discriminate].
    destruct (on_message_callback c) as [hook|]; [|destruct Hin].
    destruct Hin as [[= ->] | Hin]; [reflexivity|].
    destruct (hook m); simpl in Hin; [tauto | destruct Hin as [H | []]; discriminate].
Qed.

(** C7.  In every envelope the message hook is given, a key the frame
    does not have is defaulted: the topic and the type to the empty
    string, the timestamp to 0. *)
Theorem envelope_defaults
  (c : PolymarketWSClient) (message : string) (data : dict) (msg : Message.t) :
  json_loads message = Loaded (JObj data) ->
  In (OnMessage msg) (handle_message c message) ->
  (dict_get data "topic" = None -> Message.topic msg = "")
  /\ (dict_get data "type" = None -> Message.type msg = "")
  /\ (dict_get data "timestamp" = None -> Message.timestamp msg = 0%Z).
Proof.
  intros Hloads Hin.
  destruct (delivered_message _ _ _ Hin) as (data' & Hloads' & parsed & Hinit).
  rewrite Hloads in Hloads'. injection Hloads' as <-.
  apply Message_init_fields in Hinit as (Htopic & Htype & Hts & _).
  repeat split; intros Habsent;
    rewrite (dict_get_default_absent _ _ _ Habsent) in *; simpl in *; congruence.
Qed.

(** *** What reaches the message hook, and what does not *)

(** What [_parse_payload] can answer: the payload as it came, with or
    without a warning, or an instance of a model. *)
Lemma parse_payload_cases topic payload_type payload :
  _parse_payload topic payload_type payload = (Raw payload, [])
  \/ _parse_payload topic payload_type payload = fell_back payload
  \/ exists typed, _parse_payload topic payload_type payload = (typed, [])
                   /\ forall v, typed <> Raw v.
Proof.
  unfold _parse_payload, fell_back.
  repeat match goal with
         | |- context [if ?b then _ else _] => destruct b
         | |- context [match ?x with _ => _ end] => destruct x
         end; auto;
    right; right; eexists; (split; [reflexivity | discriminate]).
Qed.

(** A call of the message hook comes from a frame that decodes to an
    object with a payload, and is given the envelope constructed from what
    [_parse_payload] answers. *)
Lemma delivered_from_frame (c : PolymarketWSClient) (message : string) (msg : Message.t) :
  In (OnMessage msg) (handle_message c message) ->
  exists data payload,
    json_loads message = Loaded (JObj data)
    /\ dict_get data "payload" = Some payload
    /\ Message_init (dict_get_default data "topic" (JStr ""))
         (dict_get_default data "type" (JStr ""))
         (dict_get_default data "timestamp" (JInt 0))
         (fst (_parse_payload (dict_get_default data "topic" (JStr ""))
                 (dict_get_default data "type" (JStr "")) payload))
       = Some msg.
Proof.
  unfold handle_message.
  destruct (message =? "")%string; [intros []|].
  destruct (json_loads message) as [[| | | | | |data]| |];
    try (simpl; intros [H | []]; discriminate).
  unfold dict_contains, dict_get_default at 3.
  destruct (dict_get data "payload") as [payload|] eqn:Hpayload;
    [|simpl; intros [H | []]; discriminate].
  intros Hin. exists data, payload. split; [reflexivity|]. split; [exact Hpayload|].
  destruct (parse_payload_cases (dict_get_default data "topic" (JStr ""))
              (dict_get_default data "type" (JStr "")) payload)
    as [Hp | [Hp | (typed & Hp & Htyped)]];
    rewrite Hp in *; unfold fell_back in *; cbn [fst] in *;
    (apply in_app_or in Hin as [Hin | Hin];
     [simpl in Hin; try tauto; destruct Hin as [H | []]; discriminate|]).
  all: match type of Hin with
       | In _ (match ?x with _ => _ end) => destruct x as [m|]
       end; [|simpl in Hin; destruct Hin as [H | []]; discriminate].
  all: destruct (on_message_callback c) as [hook|]; [|destruct Hin].
  all: destruct Hin as [[= ->] | Hin]; [reflexivity|].
  all: destruct (hook m); simpl in Hin; [tauto | destruct Hin as [H | []]; discriminate].
Qed.

(** X1.  The envelope the message hook is given always carries, as its
    payload, the key/value map the frame has under ["payload"], as it
    came: what the models of [_parse_payload] construct never reaches the
    hook. *)
Theorem delivered_payload_is_the_raw_map
  (c : PolymarketWSClient) (message : string) (data : dict) (msg : Message.t) :
  json_loads message = Loaded (JObj data) ->
  In (OnMessage msg) (handle_message c message) ->
  dict_get data "payload" = Some (JObj (Message.payload msg)).
Proof.
  intros Hloads Hin.
  destruct (delivered_from_frame _ _ _ Hin) as (data' & payload & Hloads' & Hpayload & Hinit).
  rewrite Hloads in Hloads'. injection Hloads' as <-.
  apply Message_init_fields in Hinit as (_ & _ & _ & Hraw).
  destruct (parse_payload_cases (dict_get_default data "topic" (JStr ""))
              (dict_get_default data "type" (JStr "")) payload)
    as [Hp | [Hp | (typed & Hp & Htyped)]]; rewrite Hp in Hraw; cbn [fst fell_back] in Hraw.
  - injection Hraw as ->. exact Hpayload.
  - injection Hraw as ->. exact Hpayload.
  - now elim (Htyped _ Hraw).
Qed.

(** X2.  In the envelope the message hook is given, a topic and a type
    the frame has are the strings of the frame, unchanged (a frame whose
    topic or type is no string is not delivered), and the timestamp is the
    integer the frame's value validates to. *)
Theorem delivered_envelope_mirrors_frame
  (c : PolymarketWSClient) (message : string) (data : dict) (msg : Message.t) :
  json_loads message = Loaded (JObj data) ->
  In (OnMessage msg) (handle_message c message) ->
  (forall v, dict_get data "topic" = Some v -> v = JStr (Message.topic msg))
  /\ (forall v, dict_get data "type" = Some v -> v = JStr (Message.type msg))
  /\ (forall v, dict_get data "timestamp" = Some v ->
                validate_int v = Some (Message.timestamp msg)).
Proof.
  intros Hloads Hin.
  destruct (delivered_from_frame _ _ _ Hin) as (data' & payload & Hloads' & _ & Hinit).
  rewrite Hloads in Hloads'. injection Hloads' as <-.
  apply Message_init_fields in Hinit as (Htopic & Htype & Hts & _).
  split; [|split]; intros v Hget; rewrite (dict_get_default_get _ _ _ _ Hget) in *.
  - destruct v; simpl in Htopic; congruence.
  - destruct v; simpl in Htype; congruence.
  - exact Hts.
Qed.

Lemma parse_payload_succeeds topic payload_type kwargs :
  structured_decode_succeeds topic payload_type kwargs ->
  exists typed,
    _parse_payload (JStr topic) (JStr payload_type) (JObj kwargs) = (typed, [])
    /\ forall v, typed <> Raw v.
Proof.
  intros [(-> & -> & H) | [(-> & [-> | ->] & H) | (-> & [-> | ->] & H)]];
    unfold _parse_payload; simpl;
    match goal with |- context [match ?x with _ => _ end] => destruct x end;
    try (now elim H); eexists; (split; [reflexivity | discriminate]).
Qed.

(** X3.  A frame of a pair of the table whose payload the model of the
    pair accepts is not delivered: [Message] refuses the instance of the
    model as its payload, the loop logs an error and the message hook is
    not called. *)
Theorem decoded_payload_is_refused_by_the_envelope
  (c : PolymarketWSClient) (message : string) (data kwargs : dict)
  (topic payload_type : string) :
  message <> "" ->
  json_loads message = Loaded (JObj data) ->
  dict_get data "topic" = Some (JStr topic) ->
  dict_get data "type" = Some (JStr payload_type) ->
  dict_get data "payload" = Some (JObj kwargs) ->
  structured_decode_succeeds topic payload_type kwargs ->
  handle_message c message = [Log ERROR "Error processing message: "].
Proof.
  intros Hne Hloads Htopic Htype Hpayload Hok.
  enter_data_frame Hne Hloads Hpayload.
  rewrite (dict_get_default_get _ _ _ _ Htopic), (dict_get_default_get _ _ _ _ Htype).
  destruct (parse_payload_succeeds _ _ _ Hok) as (typed & -> & Htyped).
  now rewrite Message_init_instance.
Qed.

(** X4.  A frame that decodes to a value that is no object, or to an
    object without the key ["payload"], is no data frame: one debug record
    is logged and nothing else happens. *)
Theorem control_frame_is_ignored
  (c : PolymarketWSClient) (message : string) (v : json) :
  message <> "" ->
  json_loads message = Loaded v ->
  (forall data, v = JObj data -> dict_get data "payload" = None) ->
  handle_message c message = [Log DEBUG "Received message: "].
Proof.
  intros Hne Hloads Hno. unfold handle_message.
  rewrite (eqb_nonempty _ Hne), Hloads.
  destruct v as [| | | | | |data]; try reflexivity.
  unfold dict_contains. now rewrite (Hno data eq_refl).
Qed.

(** The events of one frame: log records and at most one call of the
    message hook. *)
Lemma handle_message_events c message :
  forallb is_log_or_delivery (handle_message c message) = true
  /\ List.length (filter is_on_message (handle_message c message)) <= 1.
Proof.
  unfold handle_message.
  destruct (message =? "")%string; [split; [reflexivity | simpl; lia]|].
  destruct (json_loads message) as [[| | | | | |data]| |];
    try (split; [reflexivity | simpl; lia]).
  destruct (dict_contains data "payload"); [|split; [reflexivity | simpl; lia]].
  destruct (parse_payload_cases (dict_get_default data "topic" (JStr ""))
              (dict_get_default data "type" (JStr ""))
              (dict_get_default data "payload" (JObj [])))
    as [Hp | [Hp | (typed & Hp & Htyped)]]; rewrite Hp; unfold fell_back;
    match goal with
    | |- context [Message_init ?a ?b ?d ?p] => destruct (Message_init a b d p) as [m|]
    end;
    try (split; [reflexivity | simpl; lia]);
    (destruct (on_message_callback c) as [hook|]; [destruct (hook m)|]);
    (split; [reflexivity | simpl; lia]).
Qed.

(** X5.  The message hook is called at most once per frame received:
    over any sequence of frames, whatever they hold and whether the hook
    returns or raises, the calls are no more than the frames. *)
Theorem message_hook_called_at_most_once_per_frame
  (c : PolymarketWSClient) (messages : list string) :
  List.length (filter is_on_message (_message_loop c messages)) <= List.length messages.
Proof.
  induction messages as [|message rest IH]; [simpl; lia|].
  cbn [_message_loop]. rewrite filter_app, length_app.
  pose proof (proj2 (handle_message_events c message)). simpl List.length. lia.
Qed.

Lemma message_loop_events c messages :
  forallb is_log_or_delivery (_message_loop c messages) = true.
Proof.
  induction messages as [|message rest IH]; [reflexivity|].
  cbn [_message_loop]. rewrite forallb_app, IH.
  now rewrite (proj1 (handle_message_events c message)).
Qed.

(** X6.  The receive loop only logs and calls the message hook: it never
    sends, closes or opens a connection, never sleeps, never touches the
    ping task and never calls the connect hook. *)
Theorem receive_loop_is_passive (c : PolymarketWSClient) (messages : list string) (e : event) :
  In e (_message_loop c messages) ->
  (exists lvl text, e = Log lvl text) \/ (exists msg, e = OnMessage msg).
Proof.
  intros Hin. pose proof (message_loop_events c messages) as Hall.
  rewrite forallb_forall in Hall. specialize (Hall e Hin).
  destruct e; try discriminate; eauto.
Qed.


(** The calls of the message hook for one frame do not depend on what the
    hook does. *)
Lemma deliveries_of_frame c1 c2 h1 h2 message :
  on_message_callback c1 = Some h1 -> on_message_callback c2 = Some h2 ->
  filter is_on_message (handle_message c1 message)
  = filter is_on_message (handle_message c2 message).
Proof.
  intros H1 H2. unfold handle_message. rewrite H1, H2.
  destruct (message =? "")%string; [reflexivity|].
  destruct (json_loads message) as [[| | | | | |data]| |]; try reflexivity.
  destruct (dict_contains data "payload"); [|reflexivity].
  destruct (_parse_payload _ _ _) as [parsed warnings].
  rewrite !filter_app. f_equal.
  destruct (Message_init _ _ _ parsed) as [m|]; [|reflexivity].
  simpl. f_equal. now destruct (h1 m), (h2 m).
Qed.

(** X8.  An exception of the message hook costs no message: over the
    same frames, a client whose hook raises (on some messages or on all)
    has its hook called with the same envelopes, in the same order, as a
    client whose hook returns. *)
Theorem hook_failures_do_not_lose_messages
  (c1 c2 : PolymarketWSClient) (h1 h2 : Message.t -> hook_outcome) (messages : list string) :
  on_message_callback c1 = Some h1 -> on_message_callback c2 = Some h2 ->
  filter is_on_message (_message_loop c1 messages)
  = filter is_on_message (_message_loop c2 messages).
Proof.
  intros H1 H2. induction messages as [|message rest IH]; [reflexivity|].
  cbn [_message_loop]. rewrite !filter_app, IH.
  now rewrite (deliveries_of_frame c1 c2 h1 h2 message H1 H2).
Qed.

End ReceiveLoop.

(** ** [connect] *)

Section Connection.
Context {R : PyRuntime}.

Lemma handle_message_no_on_connect c message :
  filter is_on_connect (handle_message c message) = [].
Proof.
  unfold handle_message.
  destruct (message =? "")%string; [reflexivity|].
  destruct (json_loads message) as [[| | | | | |data]| |]; try reflexivity.
  destruct (dict_contains data "payload"); [|reflexivity].
  destruct (_parse_payload _ _ _) as [parsed warnings] eqn:Hparsed.
  rewrite filter_app.
  assert (Hw : filter is_on_connect warnings = []).
  { unfold _parse_payload in Hparsed.
    repeat match type of Hparsed with
           | context [if ?b then _ else _] => destruct b
           | context [match ?x with _ => _ end] => destruct x
           end; injection Hparsed as _ <-; reflexivity. }
  rewrite Hw. simpl.
  destruct (Message_init _ _ _ parsed) as [m|]; [|reflexivity].
  destruct (on_message_callback c) as [hook|]; [|reflexivity].
  simpl. now destruct (hook m).
Qed.

Lemma message_loop_no_on_connect c messages :
  filter is_on_connect (_message_loop c messages) = [].
Proof.
  induction messages as [|message rest IH]; simpl; [reflexivity|].
  now rewrite filter_app, handle_message_no_on_connect, IH.
Qed.

(** In a trace that starts with a prefix free of message-hook calls, every
    message-hook call lies behind the whole prefix. *)
Lemma precedes_messages (prefix tail before : list event) msg after e :
  filter is_on_message prefix = [] -> In e prefix ->
  (prefix ++ tail = before ++ OnMessage msg :: after)%list ->
  In e before.
Proof.
  revert before. induction prefix as [|e0 prefix IH]; intros before Hnone Hin Heq;
    [destruct Hin|].
  destruct before as [|e' before].
  - injection Heq as -> _. discriminate.
  - injection Heq as -> Heq. simpl in Hnone.
    destruct Hin as [<- | Hin]; [now left|]. right.
    destruct (is_on_message e'); [discriminate|]. now apply IH.
Qed.

(** One pass over an established connection, from any state of a client
    that has a connect hook. *)
Lemma session_hooks
  (c : PolymarketWSClient) (hook : hook_outcome) (messages : list string)
  (ending : session_end) :
  on_connect_callback c = Some hook ->
  connect_hook_first (session_events c messages ending).
Proof.
  intros Hhook. unfold connect_hook_first, session_events, connect_once.
  simpl on_connect_callback.
  rewrite Hhook. destruct hook.
  - (* the hook returns: the message loop runs *)
    destruct ending; simpl; (split;
      [ rewrite filter_app, message_loop_no_on_connect; reflexivity
      | intros before msg after Heq;
        eapply (precedes_messages
                  [WsConnect (host c); Log INFO "Connected to "; OnConnect; PingTaskCreate]);
        [reflexivity | simpl; tauto | exact Heq] ]).
  - (* the hook raises: no message is received on this connection *)
    unfold connection_error. simpl.
    destruct (auto_reconnect c); simpl; (split; [reflexivity|]);
      intros before msg after Heq;
      (eapply precedes_messages with (tail := []);
       [ | | rewrite List.app_nil_r; exact Heq]; [reflexivity | simpl; tauto]).
Qed.

Lemma connect_once_keeps_hooks c a :
  on_connect_callback (fst (fst (connect_once c a))) = on_connect_callback c
  /\ on_message_callback (fst (fst (connect_once c a))) = on_message_callback c.
Proof.
  destruct c as [h ar oc om w p r].
  destruct a as [|messages ending]; unfold connect_once, connection_error, disconnect; simpl.
  - now destruct ar.
  - destruct oc as [[]|], ar; try destruct ending; simpl; now split.
Qed.

Lemma connect_keeps_hooks c script :
  on_connect_callback (fst (fst (connect c script))) = on_connect_callback c
  /\ on_message_callback (fst (fst (connect c script))) = on_message_callback c.
Proof.
  revert c. induction script as [|a script IH]; intros c; [now split|].
  cbn [connect]. pose proof (connect_once_keeps_hooks c a) as Honce.
  destruct (connect_once c a) as [[c1 events] leave]. simpl in Honce.
  destruct leave; [exact Honce|].
  specialize (IH c1). destruct (connect c1 script) as [[c2 later] returned].
  simpl in *. destruct IH as [-> ->]. exact Honce.
Qed.

(** The trace of [connect] is the trace of its passes, one after the
    other. *)
Lemma connect_passes c script :
  snd (fst (connect c script)) = flat_map snd (passes c script).
Proof.
  revert c. induction script as [|a script IH]; intros c; [reflexivity|].
  cbn [connect passes]. destruct (connect_once c a) as [[c1 events] leave].
  destruct leave; simpl.
  - now rewrite List.app_nil_r.
  - specialize (IH c1). destruct (connect c1 script) as [[c2 later] returned].
    simpl in *. now rewrite IH.
Qed.

(** C5.  In a run of [connect] by a client that has a connect hook, on
    every established connection the hook is called exactly once, and
    every call of the message hook on that connection comes after it; a
    pass that fails to connect calls no hook. *)
Theorem on_connect_once_before_messages
  (c : PolymarketWSClient) (hook : hook_outcome) (script : list attempt) :
  on_connect_callback c = Some hook ->
  Forall pass_ok (passes c script).
Proof.
  revert c. induction script as [|a script IH]; intros c Hhook; [constructor|].
  cbn [passes].
  pose proof (connect_once_keeps_hooks c a) as [Hkeep _].
  assert (Hpass : pass_ok (a, snd (fst (connect_once c a)))).
  { destruct a as [|messages ending]; unfold pass_ok; simpl fst; simpl snd.
    - unfold connect_once. destruct (connection_error c) as [handler leave] eqn:E.
      unfold connection_error in E. now destruct (auto_reconnect c); injection E as <- <-.
    - exact (session_hooks c hook messages ending Hhook). }
  destruct (connect_once c a) as [[c1 events] leave]. simpl in Hkeep, Hpass.
  constructor; [exact Hpass|].
  destruct leave; [constructor|]. apply IH. now rewrite Hkeep.
Qed.

Lemma disconnect_idempotent c :
  fst (disconnect (fst (disconnect c))) = fst (disconnect c).
Proof. destruct c as [h ar oc om [w|] p r]; reflexivity. Qed.

(** Without [auto_reconnect] the coroutine returns after the first pass. *)
Lemma connect_returns_without_auto_reconnect c a rest :
  auto_reconnect c = false ->
  connect c (a :: rest)
  = (fst (fst (connect_once c a)), snd (fst (connect_once c a)), true).
Proof.
  intros Hauto. simpl.
  assert (Hleave : snd (connect_once c a) = true).
  { destruct c as [h ar oc om w p r]. simpl in Hauto. subst ar.
    destruct a as [|messages ending]; [reflexivity|].
    unfold connect_once, connection_error, disconnect. simpl.
    destruct oc as [[]|]; try reflexivity; now destruct ending. }
  destruct (connect_once c a) as [[c1 events] leave]. simpl in *. now subst leave.
Qed.

(** With [auto_reconnect], a session that [disconnect] ended leaves
    [running] unset and the loop of [connect] goes on to the next attempt. *)
Lemma disconnect_does_not_end_connect c messages rest :
  auto_reconnect c = true -> on_connect_callback c <> Some Raises ->
  snd (connect_once c (Established messages Disconnected)) = false
  /\ running (fst (fst (connect_once c (Established messages Disconnected)))) = false
  /\ connect c (Established messages Disconnected :: rest)
     = (let '(c1, events, _) := connect_once c (Established messages Disconnected) in
        let '(c2, later, returned) := connect c1 rest in
        (c2, (events ++ later)%list, returned)).
Proof.
  intros Hauto Hhook.
  assert (Hleave : snd (connect_once c (Established messages Disconnected)) = false
                   /\ running (fst (fst (connect_once c (Established messages Disconnected))))
                      = false).
  { destruct c as [h ar oc om w p r]. simpl in Hauto, Hhook. subst ar.
    unfold connect_once, disconnect. simpl.
    destruct oc as [[]|]; solve [now split | now elim Hhook]. }
  destruct Hleave as [Hleave Hrunning]. split; [assumption|]. split; [assumption|].
  cbn [connect].
  destruct (connect_once c (Established messages Disconnected)) as [[c1 events] leave].
  simpl in Hleave. subst leave. reflexivity.
Qed.

(** *** The passes of [connect] *)

Lemma connect_once_keeps_settings c a :
  host (fst (fst (connect_once c a))) = host c
  /\ auto_reconnect (fst (fst (connect_once c a))) = auto_reconnect c.
Proof.
  destruct c as [h ar oc om w p r].
  destruct a as [|messages ending]; unfold connect_once, connection_error, disconnect; simpl.
  - now destruct ar.
  - destruct oc as [[]|], ar; try destruct ending; simpl; now split.
Qed.

(** The flag of a pass: the loop is left exactly when [auto_reconnect] is
    not set. *)
Lemma connect_once_leaves c a : snd (connect_once c a) = negb (auto_reconnect c).
Proof.
  destruct c as [h ar oc om w p r].
  destruct a as [|messages ending]; unfold connect_once, connection_error, disconnect; simpl.
  - now destruct ar.
  - destruct oc as [[]|], ar; try destruct ending; reflexivity.
Qed.

Lemma filter_message_loop (keep : event -> bool) c messages :
  (forall lvl text, keep (Log lvl text) = false) ->
  (forall msg, keep (OnMessage msg) = false) ->
  filter keep (_message_loop c messages) = [].
Proof.
  intros Hlog Hmsg. pose proof (message_loop_events c messages) as Hall.
  induction (_message_loop c messages) as [|e l IH]; [reflexivity|].
  simpl in Hall. apply andb_prop in Hall as [He Hl]. simpl.
  destruct e; try discriminate; rewrite ?Hlog, ?Hmsg; now apply IH.
Qed.

(** One pass opens one connection, to the host of the client. *)
Lemma connect_once_opens_once c a :
  filter is_ws_connect (snd (fst (connect_once c a))) = [WsConnect (host c)].
Proof.
  destruct a as [|messages ending]; unfold connect_once, connection_error.
  - now destruct (auto_reconnect c).
  - cbn [on_connect_callback set_running set_websocket].
    destruct (on_connect_callback c) as [[]|].
    + destruct ending; unfold disconnect; cbn -[_message_loop filter];
        cbn [filter is_ws_connect]; rewrite !filter_app, filter_message_loop;
        reflexivity.
    + now destruct (auto_reconnect _).
    + destruct ending; unfold disconnect; cbn -[_message_loop filter];
        cbn [filter is_ws_connect]; rewrite !filter_app, filter_message_loop;
        reflexivity.
Qed.

(** X9.  With [auto_reconnect], [run] never returns of its own: whatever
    happens on the connections (failures to connect, sessions closed by
    the peer, broken or ended by [disconnect]), every attempt is followed by
    the next, each to the host the client was constructed with. *)
Theorem auto_reconnect_never_gives_up (c : PolymarketWSClient) (script : list attempt) :
  auto_reconnect c = true ->
  snd (run c script) = false
  /\ filter is_ws_connect (snd (fst (run c script)))
     = repeat (WsConnect (host c)) (List.length script).
Proof.
  unfold run. revert c. induction script as [|a script IH]; intros c Hauto; [now split|].
  cbn [connect].
  pose proof (connect_once_leaves c a) as Hleave.
  pose proof (connect_once_opens_once c a) as Hone.
  pose proof (connect_once_keeps_settings c a) as [Hhost Hkeep].
  destruct (connect_once c a) as [[c1 events] leave]. simpl in Hleave, Hone, Hhost, Hkeep.
  rewrite Hauto in *. subst leave. simpl.
  specialize (IH c1 Hkeep). destruct (connect c1 script) as [[c2 later] returned].
  simpl in *. destruct IH as [-> IH]. split; [reflexivity|].
  now rewrite filter_app, Hone, IH, Hhost.
Qed.

(** X10.  Without [auto_reconnect], [run] makes one attempt and returns
    after it, whether the connection was established or not, and never
    sleeps. *)
Theorem single_attempt_without_auto_reconnect
  (c : PolymarketWSClient) (a : attempt) (rest : list attempt) :
  auto_reconnect c = false ->
  snd (run c (a :: rest)) = true
  /\ filter is_ws_connect (snd (fst (run c (a :: rest)))) = [WsConnect (host c)]
  /\ filter is_sleep (snd (fst (run c (a :: rest)))) = [].
Proof.
  intros Hauto. unfold run. rewrite (connect_returns_without_auto_reconnect c a rest Hauto).
  cbn [fst snd]. split; [reflexivity|]. split; [apply connect_once_opens_once|].
  destruct a as [|messages ending]; unfold connect_once, connection_error.
  - now rewrite Hauto.
  - cbn [on_connect_callback set_running set_websocket auto_reconnect].
    destruct (on_connect_callback c) as [[]|].
    + destruct ending; unfold disconnect; cbn -[_message_loop filter];
        cbn [filter is_sleep]; rewrite !filter_app, filter_message_loop; reflexivity.
    + now rewrite Hauto.
    + destruct ending; unfold disconnect; cbn -[_message_loop filter];
        cbn [filter is_sleep]; rewrite !filter_app, filter_message_loop; reflexivity.
Qed.

(** *** The ping task of a connection *)

Lemma keepalive_tasks_app alive events later :
  keepalive_tasks alive (events ++ later)
  = match keepalive_tasks alive events with
    | Some alive' => keepalive_tasks alive' later
    | None => None
    end.
Proof.
  revert alive. induction events as [|e events IH]; intros alive; [reflexivity|].
  destruct e; cbn [app keepalive_tasks]; try apply IH; destruct alive; try apply IH;
    reflexivity.
Qed.

Lemma keepalive_tasks_message_loop alive c messages :
  keepalive_tasks alive (_message_loop c messages) = Some alive.
Proof.
  pose proof (message_loop_events c messages) as Hall.
  induction (_message_loop c messages) as [|e l IH]; [reflexivity|].
  simpl in Hall. apply andb_prop in Hall as [He Hl].
  destruct e; try discriminate; now apply IH.
Qed.

Lemma keepalive_tasks_pass c a :
  keepalive_tasks false (snd (fst (connect_once c a))) = Some false.
Proof.
  destruct a as [|messages ending]; unfold connect_once, connection_error.
  - now destruct (auto_reconnect c).
  - cbn [on_connect_callback set_running set_websocket].
    destruct (on_connect_callback c) as [[]|].
    + destruct ending; unfold disconnect; cbn -[_message_loop keepalive_tasks];
        cbn [keepalive_tasks]; rewrite keepalive_tasks_app, keepalive_tasks_message_loop;
        reflexivity.
    + now destruct (auto_reconnect _).
    + destruct ending; unfold disconnect; cbn -[_message_loop keepalive_tasks];
        cbn [keepalive_tasks]; rewrite keepalive_tasks_app, keepalive_tasks_message_loop;
        reflexivity.
Qed.

(** X11.  In every run of [connect], [cancel()] is called on the ping
    task of a connection before the next connection is opened and before
    the next ping task is created: at most one ping task is alive at any
    time, and none when the run stops. *)
Theorem ping_task_is_cancelled_before_next_connection
  (c : PolymarketWSClient) (script : list attempt) :
  keepalive_tasks false (snd (fst (connect c script))) = Some false.
Proof.
  revert c. induction script as [|a script IH]; intros c; [reflexivity|].
  cbn [connect]. pose proof (keepalive_tasks_pass c a) as Hpass.
  destruct (connect_once c a) as [[c1 events] leave]. simpl in Hpass.
  destruct leave; [exact Hpass|].
  specialize (IH c1). destruct (connect c1 script) as [[c2 later] returned].
  simpl in *. now rewrite keepalive_tasks_app, Hpass.
Qed.

(** *** The delay before a reconnection *)

Lemma no_sleep_no_delay events :
  filter is_sleep events = [] -> delays_follow_connection_errors events.
Proof.
  intros Hnone before seconds after ->.
  rewrite filter_app in Hnone. simpl in Hnone.
  now destruct (filter is_sleep before).
Qed.

Lemma delays_app events later :
  delays_follow_connection_errors events -> delays_follow_connection_errors later ->
  delays_follow_connection_errors (events ++ later).
Proof.
  intros H1 H2 before seconds after Heq.
  apply app_eq_app in Heq as [l [[-> Heq] | [-> Heq]]].
  - destruct l as [|e l].
    + simpl in Heq. destruct (H2 [] seconds after) as [Hs [earlier He]];
        [now rewrite <- Heq|]. now destruct earlier.
    + injection Heq as <- ->. exact (H1 before seconds l eq_refl).
  - destruct (H2 l seconds after Heq) as [Hs [earlier ->]].
    split; [exact Hs|]. exists (events ++ earlier)%list. now rewrite List.app_assoc.
Qed.

Lemma delay_after_error (prefix : list event) :
  filter is_sleep prefix = [] ->
  delays_follow_connection_errors
    (prefix ++ [Log ERROR "Connection error: "; Sleep 5])%list.
Proof.
  intros Hnone before seconds after Heq.
  apply app_eq_app in Heq as [l [[-> Heq] | [-> Heq]]].
  - exfalso. rewrite filter_app in Hnone.
    destruct l as [|e l]; [|injection Heq as <- _; simpl in Hnone;
                            now destruct (filter is_sleep before)].
    simpl in Heq. discriminate.
  - destruct l as [|e [|e' l]]; try discriminate.
    + injection Heq as <- <- <-. split; [reflexivity|]. now exists prefix.
    + injection Heq as _ _ Heq. destruct l; discriminate.
Qed.

Lemma session_without_sleep c messages ending :
  on_connect_callback c <> Some Raises ->
  filter is_sleep (session_events c messages ending) = [].
Proof.
  intros Hhook. unfold session_events, connect_once.
  cbn [on_connect_callback set_running set_websocket].
  destruct (on_connect_callback c) as [[]|]; [|now elim Hhook|];
    destruct ending; unfold disconnect; cbn -[_message_loop filter];
    cbn [filter is_sleep]; rewrite !filter_app, filter_message_loop; reflexivity.
Qed.

Lemma delays_pass c a :
  delays_follow_connection_errors (snd (fst (connect_once c a))).
Proof.
  destruct a as [|messages ending].
  - unfold connect_once, connection_error. destruct (auto_reconnect c); cbn [fst snd].
    + apply (delay_after_error [WsConnect (host c)]). reflexivity.
    + now apply no_sleep_no_delay.
  - destruct (on_connect_callback c) as [[]|] eqn:Hhook.
    + apply no_sleep_no_delay. apply session_without_sleep. now rewrite Hhook.
    + unfold connect_once, connection_error.
      cbn [on_connect_callback set_running set_websocket auto_reconnect].
      rewrite Hhook. destruct (auto_reconnect c); cbn [fst snd].
      * apply (delay_after_error
                 [WsConnect (host c); Log INFO "Connected to "; OnConnect; WsClose]).
        reflexivity.
      * now apply no_sleep_no_delay.
    + apply no_sleep_no_delay. apply session_without_sleep. now rewrite Hhook.
Qed.

(** X12.  In every run of [connect], each sleep lasts 5 seconds and
    comes right after the record of a connection error (the handler of the
    outer [try]): the loop waits nowhere else. *)
Theorem reconnect_delay_only_after_connection_error
  (c : PolymarketWSClient) (script : list attempt) :
  delays_follow_connection_errors (snd (fst (connect c script))).
Proof.
  revert c. induction script as [|a script IH]; intros c.
  - now apply no_sleep_no_delay.
  - cbn [connect]. pose proof (delays_pass c a) as Hpass.
    destruct (connect_once c a) as [[c1 events] leave]. simpl in Hpass.
    destruct leave; [exact Hpass|].
    specialize (IH c1). destruct (connect c1 script) as [[c2 later] returned].
    simpl in *. now apply delays_app.
Qed.

(** X13.  With [auto_reconnect], a connection that was established and
    then ended (closed by the peer, broken while receiving, or ended by
    [disconnect]) is followed by the next attempt at once: the pass has no
    sleep, and the trace of the run goes on with the next pass right
    after it. *)
Theorem no_delay_after_established_session
  (c : PolymarketWSClient) (messages : list string) (ending : session_end)
  (rest : list attempt) :
  auto_reconnect c = true ->
  on_connect_callback c <> Some Raises ->
  filter is_sleep (session_events c messages ending) = []
  /\ snd (fst (connect c (Established messages ending :: rest)))
     = (session_events c messages ending
        ++ snd (fst (connect (fst (fst (connect_once c (Established messages ending))))
                       rest)))%list.
Proof.
  intros Hauto Hhook. split; [now apply session_without_sleep|].
  cbn [connect]. unfold session_events.
  pose proof (connect_once_leaves c (Established messages ending)) as Hleave.
  destruct (connect_once c (Established messages ending)) as [[c1 events] leave].
  simpl in Hleave. rewrite Hauto in Hleave. subst leave. cbn [fst snd].
  now destruct (connect c1 rest) as [[c2 later] returned].
Qed.

(** *** A connect hook that raises *)

Lemma raising_hook_pass c a :
  on_connect_callback c = Some Raises ->
  filter is_on_message (snd (fst (connect_once c a))) = []
  /\ filter is_ping_task_create (snd (fst (connect_once c a))) = [].
Proof.
  intros Hhook. destruct a as [|messages ending]; unfold connect_once, connection_error.
  - now destruct (auto_reconnect c).
  - cbn [on_connect_callback set_running set_websocket auto_reconnect]. rewrite Hhook.
    now destruct (auto_reconnect c).
Qed.

(** X14.  When the connect hook raises, the connection it was called on
    is given up like a failed attempt: in a whole run of [connect] by a
    client whose connect hook raises, no message reaches the message hook
    and no ping task is created, whatever the server sends. *)
Theorem raising_connect_hook_blocks_delivery
  (c : PolymarketWSClient) (script : list attempt) :
  on_connect_callback c = Some Raises ->
  filter is_on_message (snd (fst (connect c script))) = []
  /\ filter is_ping_task_create (snd (fst (connect c script))) = [].
Proof.
  revert c. induction script as [|a script IH]; intros c Hhook; [now split|].
  cbn [connect]. pose proof (raising_hook_pass c a Hhook) as Hpass.
  pose proof (proj1 (connect_once_keeps_hooks c a)) as Hkeep.
  destruct (connect_once c a) as [[c1 events] leave]. simpl in Hpass, Hkeep.
  destruct leave; [exact Hpass|].
  rewrite Hhook in Hkeep. specialize (IH c1 Hkeep).
  destruct (connect c1 script) as [[c2 later] returned]. simpl in *.
  rewrite !filter_app. destruct Hpass as [-> ->], IH as [-> ->]. now split.
Qed.

End Connection.

(** ** The subscription protocol *)

(** Validating the dump of a subscription gives the subscription back. *)
Lemma validate_model_dump (s : Subscription.t) :
  Subscription.validate (Subscription.model_dump s) = Some s.
Proof.
  destruct s as [topic type [f|] [[k se p]|] [[a]|]]; reflexivity.
Qed.

(** C9 (amended).  The two kinds of credentials of a subscription are
    optional independently of each other: whatever is passed for
    [clob_auth] and for [gamma_auth] (nothing, or the fields of the
    credentials), the subscription is constructed and holds both as
    passed.  In particular an entry may carry both. *)
Theorem credentials_are_independent
  (topic type : string) (filters : option string)
  (clob : option ClobApiKeyCreds.t) (gamma : option GammaAuth.t) :
  Subscription.init
    [("topic", JStr topic); ("type", JStr type);
     ("filters", dump_optional JStr filters);
     ("clob_auth", dump_optional ClobApiKeyCreds.model_dump clob);
     ("gamma_auth", dump_optional GammaAuth.model_dump gamma)]
  = Some {| Subscription.topic := topic; Subscription.type := type;
            Subscription.filters := filters;
            Subscription.clob_auth := clob; Subscription.gamma_auth := gamma |}.
Proof.
  exact (validate_model_dump
           {| Subscription.topic := topic; Subscription.type := type;
              Subscription.filters := filters;
              Subscription.clob_auth := clob; Subscription.gamma_auth := gamma |}).
Qed.

Lemma model_dump_float_free s : float_free (Subscription.model_dump s) = true.
Proof. destruct s as [topic type [f|] [c|] [g|]]; reflexivity. Qed.

Lemma model_dumps_float_free subs :
  forallb float_free (map Subscription.model_dump subs) = true.
Proof.
  induction subs as [|s subs IH]; [reflexivity|].
  change (float_free (Subscription.model_dump s)
          && forallb float_free (map Subscription.model_dump subs) = true).
  now rewrite model_dump_float_free.
Qed.

Lemma model_dump_same_fields s : same_fields (Subscription.model_dump s) s.
Proof. eexists. repeat split. Qed.

Section Subscribing.
Context {R : PyRuntime}.

(** C8.  The frame [subscribe] passes to [send] decodes to an object whose
    ["action"] is ["subscribe"] and whose ["subscriptions"] is an array
    with, entry by entry, the fields of the subscriptions of the message:
    each entry has the five fields with the values the subscription holds,
    and validating the entries gives the subscriptions back. *)
Theorem subscribe_round_trip
  (c : PolymarketWSClient) (ws : websocket_state) (msg : SubscriptionMessage.t)
  (network_ok : bool) :
  websocket c = Some ws ->
  exists frame later decoded entries,
    snd (fst (subscribe c msg network_ok)) = WsSend frame :: later
    /\ reference_loads frame = Some (JObj decoded)
    /\ dict_get decoded "action" = Some (JStr "subscribe")
    /\ dict_get decoded "subscriptions" = Some (JArr entries)
    /\ Forall2 same_fields entries (SubscriptionMessage.subscriptions msg)
    /\ map Subscription.validate entries = map Some (SubscriptionMessage.subscriptions msg).
Proof.
  intros Hws. destruct msg as [subs].
  set (entries := map Subscription.model_dump subs).
  set (decoded := [("action", JStr "subscribe"); ("subscriptions", JArr entries)]).
  assert (Hfree : float_free (JObj decoded) = true).
  { change (forallb float_free entries && true = true).
    rewrite andb_true_r. apply model_dumps_float_free. }
  exists (json_dumps (JObj decoded)).
  exists (if send_succeeds ws network_ok then [Log INFO "Subscribed to "]
          else [Log ERROR "Subscribe error: "; WsClose]).
  exists decoded, entries.
  split; [|split; [|split; [|split; [|split]]]]; try reflexivity.
  - unfold subscribe. rewrite Hws. destruct (send_succeeds ws network_ok); reflexivity.
  - now apply reference_loads_dumps.
  - subst entries. clear decoded Hfree.
    induction subs as [|s subs IH]; cbn [map]; constructor;
      [apply model_dump_same_fields | exact IH].
  - subst entries. rewrite map_map. apply map_ext. intros s. apply validate_model_dump.
Qed.

(** C3, at a client whose connection object is closed (the client was
    connected, and then disconnected or cut off): [subscribe] and
    [unsubscribe] pass the guard, call [send], log its failure, close the
    connection and return; no error reaches the caller. *)
Theorem send_attempted_on_closed_connection
  (c : PolymarketWSClient) (msg : SubscriptionMessage.t) (network_ok : bool) :
  let closed := set_websocket c (Some WsClosed) in
  subscribe closed msg network_ok
  = (closed,
     [WsSend (subscription_frame "subscribe" msg); Log ERROR "Subscribe error: "; WsClose],
     Returned)
  /\ unsubscribe closed msg network_ok
     = (closed,
        [WsSend (subscription_frame "unsubscribe" msg); Log ERROR "Unsubscribe error: ";
         WsClose],
        Returned).
Proof. destruct c; split; reflexivity. Qed.

(** [disconnect] leaves the connection object of a connected client in
    place, closed. *)
Lemma disconnect_keeps_websocket (c : PolymarketWSClient) (ws : websocket_state) :
  websocket c = Some ws ->
  fst (disconnect c) = set_websocket (set_running c false) (Some WsClosed).
Proof. intros H. unfold disconnect. simpl. now rewrite H. Qed.

(** On a client that never connected both fail and send nothing. *)
Lemma not_connected_raises (c : PolymarketWSClient) (msg : SubscriptionMessage.t)
  (network_ok : bool) :
  websocket c = None ->
  subscribe c msg network_ok = (c, [], Raised "Not connected to WebSocket server")
  /\ unsubscribe c msg network_ok = (c, [], Raised "Not connected to WebSocket server").
Proof. intros H. unfold subscribe, unsubscribe. now rewrite H. Qed.

(** *** [unsubscribe], and the calls before and after a connection *)

(** X15.  The frame [unsubscribe] passes to [send] decodes to an object
    whose ["action"] is ["unsubscribe"] and whose ["subscriptions"] is an
    array that validates, entry by entry, to the subscriptions of the
    message. *)
Theorem unsubscribe_round_trip
  (c : PolymarketWSClient) (ws : websocket_state) (msg : SubscriptionMessage.t)
  (network_ok : bool) :
  websocket c = Some ws ->
  exists frame later decoded entries,
    snd (fst (unsubscribe c msg network_ok)) = WsSend frame :: later
    /\ reference_loads frame = Some (JObj decoded)
    /\ dict_get decoded "action" = Some (JStr "unsubscribe")
    /\ dict_get decoded "subscriptions" = Some (JArr entries)
    /\ map Subscription.validate entries = map Some (SubscriptionMessage.subscriptions msg).
Proof.
  intros Hws. destruct msg as [subs].
  set (entries := map Subscription.model_dump subs).
  set (decoded := [("action", JStr "unsubscribe"); ("subscriptions", JArr entries)]).
  assert (Hfree : float_free (JObj decoded) = true).
  { change (forallb float_free entries && true = true).
    rewrite andb_true_r. apply model_dumps_float_free. }
  exists (json_dumps (JObj decoded)).
  exists (if send_succeeds ws network_ok then [Log INFO "Unsubscribed from "]
          else [Log ERROR "Unsubscribe error: "; WsClose]).
  exists decoded, entries.
  split; [|split; [|split; [|split]]]; try reflexivity.
  - unfold unsubscribe. rewrite Hws. destruct (send_succeeds ws network_ok); reflexivity.
  - now apply reference_loads_dumps.
  - subst entries. rewrite map_map. apply map_ext. intros s. apply validate_model_dump.
Qed.

(** A pass that establishes a connection leaves its connection object in
    the attribute, closed. *)
Lemma closed_after_session c messages ending :
  websocket (fst (fst (connect_once c (Established messages ending)))) = Some WsClosed.
Proof.
  destruct c as [h ar oc om w p r]. unfold connect_once, connection_error, disconnect.
  cbn [on_connect_callback set_running set_websocket set_ping_task auto_reconnect websocket].
  destruct oc as [[]|], ar; try destruct ending; reflexivity.
Qed.

Lemma set_websocket_same c ws : websocket c = Some ws -> set_websocket c (Some ws) = c.
Proof. destruct c. simpl. now intros ->. Qed.

Lemma calls_on_closed_connection c msg network_ok :
  websocket c = Some WsClosed ->
  subscribe c msg network_ok
  = (c, [WsSend (subscription_frame "subscribe" msg); Log ERROR "Subscribe error: "; WsClose],
     Returned)
  /\ unsubscribe c msg network_ok
     = (c, [WsSend (subscription_frame "unsubscribe" msg); Log ERROR "Unsubscribe error: ";
            WsClose],
        Returned).
Proof.
  intros Hclosed. unfold subscribe, unsubscribe. rewrite Hclosed. simpl send_succeeds. cbn iota.
  rewrite (set_websocket_same _ _ Hclosed). now split.
Qed.

(** X16.  After a pass of [connect] that established a connection,
    however the connection ended, [subscribe] and [unsubscribe] no longer
    raise: the attribute still holds the closed connection, so they call
    [send], log the error, call [close] and return, and leave the client
    as it is. *)
Theorem no_not_connected_error_after_a_session
  (c : PolymarketWSClient) (messages : list string) (ending : session_end)
  (msg : SubscriptionMessage.t) (network_ok : bool) :
  let c1 := fst (fst (connect_once c (Established messages ending))) in
  subscribe c1 msg network_ok
  = (c1, [WsSend (subscription_frame "subscribe" msg); Log ERROR "Subscribe error: "; WsClose],
     Returned)
  /\ unsubscribe c1 msg network_ok
     = (c1, [WsSend (subscription_frame "unsubscribe" msg); Log ERROR "Unsubscribe error: ";
             WsClose],
        Returned).
Proof. intros c1. apply calls_on_closed_connection, closed_after_session. Qed.

(** X17.  A client as [__init__] leaves it is not connected, and
    attempts that fail to connect do not change that: until a connection
    is established, [subscribe] and [unsubscribe] raise and call nothing
    on the network. *)
Theorem not_connected_until_a_connection_is_established
  (on_connect : option hook_outcome) (on_message : option (Message.t -> hook_outcome))
  (host : string) (auto_reconnect : bool)
  (script : list attempt) (msg : SubscriptionMessage.t) (network_ok : bool) :
  Forall (fun a => a = ConnectRaised) script ->
  let c1 := fst (fst (connect (new_client on_connect on_message host auto_reconnect) script)) in
  subscribe c1 msg network_ok = (c1, [], Raised "Not connected to WebSocket server")
  /\ unsubscribe c1 msg network_ok = (c1, [], Raised "Not connected to WebSocket server").
Proof.
  intros Hfailed c1.
  assert (Hstill : websocket c1 = None).
  { subst c1.
    assert (Hnone : websocket (new_client on_connect on_message host auto_reconnect) = None)
      by reflexivity.
    revert Hnone. generalize (new_client on_connect on_message host auto_reconnect).
    induction Hfailed as [|a script -> _ IH]; intros c Hnone; [exact Hnone|].
    cbn [connect connect_once]. destruct (connection_error c) as [handler leave].
    destruct leave; [exact Hnone|].
    specialize (IH c Hnone). now destruct (connect c script) as [[c2 later] returned]. }
  unfold subscribe, unsubscribe. now rewrite Hstill.
Qed.



End Subscribing.

(** ** The ping task and the TLS context *)


(** X21.  When the task finds [running] unset at the head of a turn, it
    returns without a ping and without a log record, and nothing that
    happens later (a reconnection that sets [running] again) brings it
    back. *)
Theorem ping_loop_ends_when_not_running
  (ping_interval : spec_float) (earlier later : list (PolymarketWSClient * bool))
  (c : PolymarketWSClient) (network_ok : bool) :
  running c = false ->
  _ping_loop ping_interval (earlier ++ (c, network_ok) :: later)%list
  = (fst (_ping_loop ping_interval earlier), true).
Proof.
  intros Hstop. induction earlier as [|[c0 ok0] earlier IH].
  - cbn [app _ping_loop fst]. now rewrite Hstop.
  - cbn [app _ping_loop]. destruct (running c0); [|reflexivity].
    destruct (ping_succeeds c0 ok0); [|reflexivity].
    rewrite IH. now destruct (_ping_loop ping_interval earlier).
Qed.

Lemma startswith_wss host :
  startswith host "wss://" = true <-> exists rest, host = "wss://" ++ rest.
Proof.
  unfold startswith. split.
  - intros H.
    do 6 (destruct host as [|? host]; [discriminate|];
          cbn [String.prefix] in H;
          match type of H with
          | (if ?d then _ else _) = true =>
              destruct d as [->|]; [|discriminate]
          end).
    now exists host.
  - intros [rest ->]. simpl. now destruct rest.
Qed.

(** X22.  Setting up the TLS context never raises.  A context is passed
    to [connect] exactly for a host that starts with ["wss://"]; it checks
    the host name and requires a valid certificate (with the roots of
    certifi added) when [ssl_verify] is set, and does neither when it is
    not. *)
Theorem tls_verification_is_skipped_only_on_request
  (host : string) (ssl_verify : bool) (cafile : string) :
  exists passed,
    ssl_context_for host ssl_verify cafile = Some passed
    /\ (passed = None <-> ~ exists rest, host = "wss://" ++ rest)
    /\ forall ctx, passed = Some ctx ->
         check_hostname ctx = ssl_verify
         /\ verify_mode ctx = (if ssl_verify then CERT_REQUIRED else CERT_NONE)
         /\ verify_locations ctx = (if ssl_verify then [cafile] else []).
Proof.
  unfold ssl_context_for. pose proof (startswith_wss host) as Hwss.
  destruct (startswith host "wss://").
  - destruct ssl_verify; simpl; eexists; (split; [reflexivity|]);
      (split; [split; [discriminate | intros Hno; elim Hno; now apply Hwss]|]);
      intros ctx [= <-]; now repeat split.
  - exists None. split; [reflexivity|]. split; [|discriminate].
    split; [|reflexivity]. intros _ Hrest. apply Hwss in Hrest. discriminate.
Qed.

(** ** The payload models *)

Section Models.
Context {R : PyRuntime}.

Ltac same_lookups H :=
  repeat match goal with
         | |- context [dict_get ?d ?k] =>
             lazymatch type of H with
             | agree_on _ d _ => rewrite (H k) by (simpl; tauto)
             end
         end.

(** X23.  [Trade], [Comment] and [Reaction] read the keyword arguments
    through their own fields only: two payloads that agree on the fields of
    a model are both refused, or give the same instance.  Keys the model
    does not declare are ignored, and the order of the keys does not
    matter. *)
Theorem models_read_their_fields_only (d1 d2 : dict) :
  (agree_on Trade.model_fields d1 d2 -> Trade.init d1 = Trade.init d2)
  /\ (agree_on Comment.model_fields d1 d2 -> Comment.init d1 = Comment.init d2)
  /\ (agree_on Reaction.model_fields d1 d2 -> Reaction.init d1 = Reaction.init d2).
Proof.
  split; [|split]; intros H.
  - unfold Trade.init, required, defaults_to_None. same_lookups H. reflexivity.
  - unfold Comment.init, required, defaults_to_None. same_lookups H. reflexivity.
  - unfold Reaction.init, required, defaults_to_None. same_lookups H. reflexivity.
Qed.

Ltac refuse :=
  repeat match goal with
         | |- match ?x with Some _ => _ | None => None end = None =>
             destruct x; [|reflexivity]
         end;
  try reflexivity.

(** X24.  A payload that lacks a field without a default is refused:
    any of the eighteen required fields of [Trade] (all but
    [profileImageOptimized]), any field of [Comment], any field of
    [Reaction]. *)
Theorem payload_models_require_their_fields (kwargs : dict) (k : string) :
  dict_get kwargs k = None ->
  (In k Trade.required_fields -> Trade.init kwargs = None)
  /\ (In k Comment.model_fields -> Comment.init kwargs = None)
  /\ (In k Reaction.model_fields -> Reaction.init kwargs = None).
Proof.
  intros Habsent. split; [|split]; intros Hin; simpl in Hin;
    repeat (destruct Hin as [<- | Hin]; [|]); try (now destruct Hin).
  all: try (unfold Trade.init); try (unfold Comment.init); try (unfold Reaction.init).
  all: unfold required; rewrite Habsent; refuse.
Qed.

Lemma bind_Some {A B : Type} (e : option A) (k : A -> option B) (r : B) :
  (x <- e ;; k x) = Some r -> exists x, e = Some x /\ k x = Some r.
Proof. destruct e as [x|]; [|discriminate]. intros H. now exists x. Qed.

Lemma required_Some {A : Type} (validate : json -> option A) kwargs name a :
  required validate kwargs name = Some a ->
  exists v, dict_get kwargs name = Some v /\ validate v = Some a.
Proof.
  unfold required. destruct (dict_get kwargs name) as [v|]; [|discriminate]. now exists v.
Qed.

Lemma validate_optional_str v o :
  validate_optional validate_str v = Some o ->
  (v = JNull /\ o = None) \/ (exists s, v = JStr s /\ o = Some s).
Proof.
  destruct v; simpl; try discriminate.
  - intros [= <-]. now left.
  - intros [= <-]. right. now exists s.
Qed.

(** X25.  [parentCommentID] and [replyAddress] of [Comment] are optional
    in type only: a comment that is constructed had both keys in its
    payload, each with [None] (the field is then [None]) or with a string
    (the field is that string). *)
Theorem comment_parent_is_required_but_nullable (kwargs : dict) (c : Comment.t) :
  Comment.init kwargs = Some c ->
  (exists v, dict_get kwargs "parentCommentID" = Some v
             /\ ((v = JNull /\ Comment.parentCommentID c = None)
                 \/ exists s, v = JStr s /\ Comment.parentCommentID c = Some s))
  /\ (exists v, dict_get kwargs "replyAddress" = Some v
                /\ ((v = JNull /\ Comment.replyAddress c = None)
                    \/ exists s, v = JStr s /\ Comment.replyAddress c = Some s)).
Proof.
  unfold Comment.init. intros H.
  apply bind_Some in H as (f1 & _ & H). apply bind_Some in H as (f2 & _ & H).
  apply bind_Some in H as (f3 & _ & H). apply bind_Some in H as (f4 & _ & H).
  apply bind_Some in H as (f5 & H5 & H). apply bind_Some in H as (f6 & _ & H).
  apply bind_Some in H as (f7 & H7 & H). apply bind_Some in H as (f8 & _ & H).
  apply bind_Some in H as (f9 & _ & H). injection H as <-. simpl.
  apply required_Some in H5 as (v5 & Hget5 & Hv5), H7 as (v7 & Hget7 & Hv7).
  split; [exists v5 | exists v7]; (split; [assumption|]);
    now apply validate_optional_str.
Qed.

(** X26.  The side of a trade that is constructed is the string of the
    payload, and that string is ["BUY"] or ["SELL"] exactly (no other
    spelling is taken). *)
Theorem trade_side_is_buy_or_sell (kwargs : dict) (t : Trade.t) :
  Trade.init kwargs = Some t ->
  (dict_get kwargs "side" = Some (JStr "BUY") /\ Trade.side t = Trade.BUY)
  \/ (dict_get kwargs "side" = Some (JStr "SELL") /\ Trade.side t = Trade.SELL).
Proof.
  unfold Trade.init. intros H.
  do 13 (apply bind_Some in H as (? & _ & H)).
  apply bind_Some in H as (f14 & H14 & H).
  do 5 (apply bind_Some in H as (? & _ & H)).
  injection H as <-. simpl.
  apply required_Some in H14 as (v & Hget & Hv).
  destruct v; try discriminate. simpl in Hv.
  destruct (s =? "BUY")%string eqn:Hbuy.
  - apply String.eqb_eq in Hbuy. subst s. injection Hv as <-. now left.
  - destruct (s =? "SELL")%string eqn:Hsell; [|discriminate].
    apply String.eqb_eq in Hsell. subst s. injection Hv as <-. now right.
Qed.

End Models.

Lemma validate_items_model_dump subs :
  validate_items Subscription.validate (map Subscription.model_dump subs) = Some subs.
Proof.
  induction subs as [|s subs IH]; [reflexivity|].
  cbn [map validate_items]. now rewrite validate_model_dump, IH.
Qed.

(** X27.  Constructing a [SubscriptionMessage] from the dump of a
    message gives the message back, whatever its subscriptions and their
    credentials. *)
Theorem subscription_message_round_trip (m : SubscriptionMessage.t) :
  SubscriptionMessage.init (SubscriptionMessage.model_dump m) = Some m.
Proof.
  destruct m as [subs]. unfold SubscriptionMessage.init, SubscriptionMessage.model_dump, required.
  cbn [dict_get SubscriptionMessage.subscriptions]. simpl String.eqb. cbn iota.
  unfold validate_list. now rewrite validate_items_model_dump.
Qed.

(** ** The statements at sample data *)

(** C1 as stated fails: the frame decodes, its pair is activity/trades
    and [Trade] refuses its payload, but its timestamp is [null]; the
    warning is followed by an error and the hook is not called. *)
Lemma dropped_on_null_timestamp :
  reference_loads (text_of frame_null_timestamp) = Some (JObj frame_null_timestamp)
  /\ (forall R : PyRuntime, structured_decode_fails "activity" "trades" partial_trade)
  /\ (forall (R : PyRuntime) (c : PolymarketWSClient),
         json_loads (text_of frame_null_timestamp) = Loaded (JObj frame_null_timestamp) ->
         handle_message c (text_of frame_null_timestamp)
         = [Log WARNING "Failed to parse payload: "; Log ERROR "Error processing message: "]).
Proof.
  split; [vm_compute; reflexivity|]. split.
  - intros R. left. repeat split.
  - intros R c Hloads. unfold handle_message. rewrite Hloads. reflexivity.
Qed.

(** C1 (amended) at a trade frame whose payload has two fields only. *)
Lemma fallback_delivers_raw_map_witness :
  @handle_message reference_runtime sample_client (text_of frame_partial_trade)
  = [Log WARNING "Failed to parse payload: ";
     OnMessage (raw_message "activity" "trades" 1700000000 partial_trade)].
Proof.
  apply (@fallback_delivers_raw_map reference_runtime sample_client (fun _ => Returns)
           (text_of frame_partial_trade) frame_partial_trade
           partial_trade "activity" "trades" 1700000000%Z).
  - discriminate.
  - vm_compute. reflexivity.
  - reflexivity.
  - reflexivity.
  - reflexivity.
  - left. repeat split.
  - reflexivity.
  - reflexivity.
Defined.

(** C2 as stated fails: the empty frame is no JSON text, and the receive
    loop skips it without a log record. *)
Lemma empty_frame_is_not_reported :
  reference_loads "" = None
  /\ forall (R : PyRuntime) (c : PolymarketWSClient) (rest : list string),
       _message_loop c ("" :: rest) = _message_loop c rest.
Proof. split; reflexivity. Qed.

(** C2 (amended) at a frame that is an opening brace, followed by a data
    frame. *)
Lemma malformed_frame_is_discarded_witness :
  @_message_loop reference_runtime sample_client ["{"; text_of frame_bare]
  = [Log ERROR "Failed to parse message: ";
     OnMessage (raw_message "" "" 0 [("asset", JStr "0x1")])].
Proof.
  rewrite (@malformed_frame_is_discarded reference_runtime sample_client "{"
             [text_of frame_bare]).
  - vm_compute. reflexivity.
  - vm_compute. reflexivity.
Defined.

(** C5 at a run of three passes: a failed attempt, a connection that
    yields one data frame and is closed by the peer, and one that
    [disconnect] ends. *)
Lemma on_connect_once_before_messages_witness :
  Forall pass_ok
    (@passes reference_runtime sample_client
       [ConnectRaised; Established [text_of frame_bare] PeerClosed;
        Established [] Disconnected]).
Proof.
  apply (@on_connect_once_before_messages reference_runtime sample_client Returns).
  reflexivity.
Defined.

(** C6 at the trade of the first scenario: side BUY, size 10. *)
Lemma parse_payload_table_witness :
  @_parse_payload reference_runtime (JStr "activity") (JStr "trades") (JObj sample_trade)
  = (OfTrade sample_trade_record, []).
Proof.
  apply (proj1 (@parse_payload_table reference_runtime (JObj sample_trade))
           sample_trade sample_trade_record); reflexivity.
Defined.

(** C7 at a frame that has a payload and nothing else. *)
Lemma envelope_defaults_witness :
  (dict_get frame_bare "topic" = None
   -> Message.topic (raw_message "" "" 0 [("asset", JStr "0x1")]) = "")
  /\ (dict_get frame_bare "type" = None
      -> Message.type (raw_message "" "" 0 [("asset", JStr "0x1")]) = "")
  /\ (dict_get frame_bare "timestamp" = None
      -> Message.timestamp (raw_message "" "" 0 [("asset", JStr "0x1")]) = 0%Z).
Proof.
  apply (@envelope_defaults reference_runtime sample_client (text_of frame_bare) frame_bare
           (raw_message "" "" 0 [("asset", JStr "0x1")])).
  - vm_compute. reflexivity.
  - vm_compute. left. reflexivity.
Defined.

(** C8 at two subscriptions, one without and one with credentials. *)
Lemma subscribe_round_trip_witness :
  exists frame later decoded entries,
    snd (fst (@subscribe reference_runtime connected_client sample_subscriptions true))
    = WsSend frame :: later
    /\ reference_loads frame = Some (JObj decoded)
    /\ dict_get decoded "action" = Some (JStr "subscribe")
    /\ dict_get decoded "subscriptions" = Some (JArr entries)
    /\ Forall2 same_fields entries (SubscriptionMessage.subscriptions sample_subscriptions)
    /\ map Subscription.validate entries
       = map Some (SubscriptionMessage.subscriptions sample_subscriptions).
Proof.
  apply (@subscribe_round_trip reference_runtime connected_client WsOpen sample_subscriptions true).
  reflexivity.
Defined.

(** C9 as stated fails: a subscription with both kinds of credentials is
    constructed. *)
Lemma subscription_with_both_credentials :
  Subscription.init
    [("topic", JStr "comments"); ("type", JStr "comment_created");
     ("clob_auth", JObj [("key", JStr "k"); ("secret", JStr "s"); ("passphrase", JStr "p")]);
     ("gamma_auth", JObj [("address", JStr "0xabc")])]
  = Some {| Subscription.topic := "comments"; Subscription.type := "comment_created";
            Subscription.filters := None;
            Subscription.clob_auth :=
              Some {| ClobApiKeyCreds.key := "k"; ClobApiKeyCreds.secret := "s";
                      ClobApiKeyCreds.passphrase := "p" |};
            Subscription.gamma_auth := Some {| GammaAuth.address := "0xabc" |} |}.
Proof. reflexivity. Qed.

(** C10 at a trade frame whose payload is a string. *)
Lemma payload_that_is_no_map_is_dropped_witness :
  @handle_message reference_runtime sample_client (text_of frame_text_payload)
  = [Log WARNING "Failed to parse payload: "; Log ERROR "Error processing message: "]
  /\ filter is_on_message
       (@handle_message reference_runtime sample_client (text_of frame_text_payload)) = [].
Proof.
  destruct (@payload_that_is_no_map_is_dropped reference_runtime sample_client
              (text_of frame_text_payload) frame_text_payload (JStr "oops"))
    as [[H | H] Hnone].
  - discriminate.
  - vm_compute. reflexivity.
  - reflexivity.
  - discriminate.
  - exfalso. revert H. vm_compute. discriminate.
  - split; assumption.
Defined.

(** C4, at a client with [auto_reconnect] (the default) whose first
    session is ended by [disconnect]: [connect] opens a new connection,
    the connect hook is called again, a new ping task is created and a
    message reaches the message hook.  The fifth event is the [close] of
    [disconnect]. *)
Theorem reconnects_after_disconnect :
  @connect reference_runtime sample_client
    [Established [] Disconnected; Established [text_of frame_bare] PeerClosed]
  = ({| host := DEFAULT_HOST; auto_reconnect := true;
        on_connect_callback := Some Returns;
        on_message_callback := on_message_callback sample_client;
        websocket := Some WsClosed; ping_task := Some TaskCancelled; running := true |},
     [WsConnect DEFAULT_HOST; Log INFO "Connected to "; OnConnect; PingTaskCreate;
      WsClose; PingTaskCancel; WsClose;
      WsConnect DEFAULT_HOST; Log INFO "Connected to "; OnConnect; PingTaskCreate;
      OnMessage (raw_message "" "" 0 [("asset", JStr "0x1")]);
      PingTaskCancel; WsClose],
     false).
Proof. vm_compute. reflexivity. Qed.

(** ** The further properties at sample data *)

(** X1 at the trade frame whose payload [Trade] refuses. *)
Lemma delivered_payload_is_the_raw_map_witness :
  dict_get frame_partial_trade "payload"
  = Some (JObj (Message.payload (raw_message "activity" "trades" 1700000000 partial_trade))).
Proof.
  apply (@delivered_payload_is_the_raw_map reference_runtime sample_client
           (text_of frame_partial_trade) frame_partial_trade
           (raw_message "activity" "trades" 1700000000 partial_trade)).
  - vm_compute. reflexivity.
  - vm_compute. right. left. reflexivity.
Defined.

(** X2 at the same frame. *)
Lemma delivered_envelope_mirrors_frame_witness :
  (forall v, dict_get frame_partial_trade "topic" = Some v -> v = JStr "activity")
  /\ (forall v, dict_get frame_partial_trade "type" = Some v -> v = JStr "trades")
  /\ (forall v, dict_get frame_partial_trade "timestamp" = Some v ->
                @validate_int reference_runtime v = Some 1700000000%Z).
Proof.
  apply (@delivered_envelope_mirrors_frame reference_runtime sample_client
           (text_of frame_partial_trade) frame_partial_trade
           (raw_message "activity" "trades" 1700000000 partial_trade)).
  - vm_compute. reflexivity.
  - vm_compute. right. left. reflexivity.
Defined.

(** X3 at a reaction frame whose payload [Reaction] accepts. *)
Lemma decoded_payload_is_refused_by_the_envelope_witness :
  @handle_message reference_runtime sample_client (text_of frame_reaction)
  = [Log ERROR "Error processing message: "].
Proof.
  apply (@decoded_payload_is_refused_by_the_envelope reference_runtime sample_client
           (text_of frame_reaction) frame_reaction sample_reaction
           "comments" "reaction_created").
  - discriminate.
  - vm_compute. reflexivity.
  - reflexivity.
  - reflexivity.
  - reflexivity.
  - right. right. split; [reflexivity|]. split; [now left | discriminate].
Defined.

(** X4 at a frame with a topic and a type and no payload. *)
Lemma control_frame_is_ignored_witness :
  @handle_message reference_runtime sample_client (text_of frame_control)
  = [Log DEBUG "Received message: "].
Proof.
  apply (@control_frame_is_ignored reference_runtime sample_client (text_of frame_control)
           (JObj frame_control)).
  - discriminate.
  - vm_compute. reflexivity.
  - intros data [= <-]. reflexivity.
Defined.

(** X6 at the error record of a malformed frame. *)
Lemma receive_loop_is_passive_witness :
  (exists lvl text, Log ERROR "Failed to parse message: " = Log lvl text)
  \/ (exists msg, Log ERROR "Failed to parse message: " = OnMessage msg).
Proof.
  apply (@receive_loop_is_passive reference_runtime sample_client ["{"; text_of frame_bare]).
  vm_compute. left. reflexivity.
Defined.

(** X8 at a hook that always raises, over a malformed frame and two data
    frames. *)
Lemma hook_failures_do_not_lose_messages_witness :
  filter is_on_message
    (@_message_loop reference_runtime client_with_raising_message_hook
       [text_of frame_bare; "{"; text_of frame_partial_trade])
  = [OnMessage (raw_message "" "" 0 [("asset", JStr "0x1")]);
     OnMessage (raw_message "activity" "trades" 1700000000 partial_trade)].
Proof.
  rewrite (@hook_failures_do_not_lose_messages reference_runtime
             client_with_raising_message_hook sample_client
             (fun _ => Raises) (fun _ => Returns)
             [text_of frame_bare; "{"; text_of frame_partial_trade] eq_refl eq_refl).
  vm_compute. reflexivity.
Defined.

(** X9 at a failed attempt followed by a session the peer closes. *)
Lemma auto_reconnect_never_gives_up_witness :
  snd (@run reference_runtime sample_client [ConnectRaised; Established [] PeerClosed])
  = false
  /\ filter is_ws_connect
       (snd (fst (@run reference_runtime sample_client
                    [ConnectRaised; Established [] PeerClosed])))
     = [WsConnect DEFAULT_HOST; WsConnect DEFAULT_HOST].
Proof.
  apply (@auto_reconnect_never_gives_up reference_runtime sample_client
           [ConnectRaised; Established [] PeerClosed]).
  reflexivity.
Defined.

(** X10 at a session with one data frame. *)
Lemma single_attempt_without_auto_reconnect_witness :
  snd (@run reference_runtime single_shot_client
         [Established [text_of frame_bare] PeerClosed; ConnectRaised]) = true
  /\ filter is_ws_connect
       (snd (fst (@run reference_runtime single_shot_client
                    [Established [text_of frame_bare] PeerClosed; ConnectRaised])))
     = [WsConnect DEFAULT_HOST]
  /\ filter is_sleep
       (snd (fst (@run reference_runtime single_shot_client
                    [Established [text_of frame_bare] PeerClosed; ConnectRaised])))
     = [].
Proof.
  apply (@single_attempt_without_auto_reconnect reference_runtime single_shot_client
           (Established [text_of frame_bare] PeerClosed) [ConnectRaised]).
  reflexivity.
Defined.

(** X13 at a session that breaks while receiving, followed by a failed
    attempt. *)
Lemma no_delay_after_established_session_witness :
  filter is_sleep (@session_events reference_runtime sample_client [] ReceiveRaised) = []
  /\ snd (fst (@connect reference_runtime sample_client
                 [Established [] ReceiveRaised; ConnectRaised]))
     = (@session_events reference_runtime sample_client [] ReceiveRaised
        ++ snd (fst (@connect reference_runtime
                       (fst (fst (@connect_once reference_runtime sample_client
                                    (Established [] ReceiveRaised))))
                       [ConnectRaised])))%list.
Proof.
  apply (@no_delay_after_established_session reference_runtime sample_client []
           ReceiveRaised [ConnectRaised]).
  - reflexivity.
  - discriminate.
Defined.

(** X14 at two connections that each have a data frame to deliver. *)
Lemma raising_connect_hook_blocks_delivery_witness :
  filter is_on_message
    (snd (fst (@connect reference_runtime client_with_raising_hook
                 [Established [text_of frame_bare] PeerClosed;
                  Established [text_of frame_bare] PeerClosed]))) = []
  /\ filter is_ping_task_create
       (snd (fst (@connect reference_runtime client_with_raising_hook
                    [Established [text_of frame_bare] PeerClosed;
                     Established [text_of frame_bare] PeerClosed]))) = [].
Proof.
  apply (@raising_connect_hook_blocks_delivery reference_runtime client_with_raising_hook).
  reflexivity.
Defined.

(** X15 at two subscriptions, one without and one with credentials. *)
Lemma unsubscribe_round_trip_witness :
  exists frame later decoded entries,
    snd (fst (@unsubscribe reference_runtime connected_client sample_subscriptions true))
    = WsSend frame :: later
    /\ reference_loads frame = Some (JObj decoded)
    /\ dict_get decoded "action" = Some (JStr "unsubscribe")
    /\ dict_get decoded "subscriptions" = Some (JArr entries)
    /\ map Subscription.validate entries
       = map Some (SubscriptionMessage.subscriptions sample_subscriptions).
Proof.
  apply (@unsubscribe_round_trip reference_runtime connected_client WsOpen
           sample_subscriptions true).
  reflexivity.
Defined.

(** X17 at two failed attempts of a client with [auto_reconnect]. *)
Lemma not_connected_until_a_connection_is_established_witness :
  @subscribe reference_runtime
    (fst (fst (@connect reference_runtime sample_client [ConnectRaised; ConnectRaised])))
    sample_subscriptions true
  = (fst (fst (@connect reference_runtime sample_client [ConnectRaised; ConnectRaised])),
     [], Raised "Not connected to WebSocket server")
  /\ @unsubscribe reference_runtime
       (fst (fst (@connect reference_runtime sample_client [ConnectRaised; ConnectRaised])))
       sample_subscriptions true
     = (fst (fst (@connect reference_runtime sample_client [ConnectRaised; ConnectRaised])),
        [], Raised "Not connected to WebSocket server").
Proof.
  apply (@not_connected_until_a_connection_is_established reference_runtime
           (Some Returns) (Some (fun _ => Returns)) DEFAULT_HOST true
           [ConnectRaised; ConnectRaised] sample_subscriptions true).
  repeat constructor.
Defined.


(** X21 at a task that pinged once before [disconnect] was called; the
    client is connected again at the turn after. *)
Lemma ping_loop_ends_when_not_running_witness :
  _ping_loop five_seconds
    [(connected_client, true);
     (fst (@disconnect connected_client), true);
     (connected_client, true)]
  = ([WsPing; KeepaliveSleep five_seconds], true).
Proof.
  apply (ping_loop_ends_when_not_running five_seconds [(connected_client, true)]
           [(connected_client, true)] (fst (@disconnect connected_client)) true).
  reflexivity.
Defined.

(** X23 at a trade payload with a key [Trade] does not declare and its
    other keys in another order. *)
Lemma models_read_their_fields_only_witness :
  @Trade.init reference_runtime trade_with_fee = Some sample_trade_record.
Proof.
  rewrite (proj1 (@models_read_their_fields_only reference_runtime trade_with_fee
                    sample_trade)).
  - reflexivity.
  - intros k Hin. simpl in Hin.
    repeat (destruct Hin as [<- | Hin]; [reflexivity|]). destruct Hin.
Defined.

(** X24 at the trade payload without its ["asset"]. *)
Lemma payload_models_require_their_fields_witness :
  @Trade.init reference_runtime trade_without_asset = None.
Proof.
  apply (proj1 (@payload_models_require_their_fields reference_runtime trade_without_asset
                  "asset" eq_refl)).
  simpl. tauto.
Defined.

(** X25 at a top-level comment. *)
Lemma comment_parent_is_required_but_nullable_witness :
  (exists v, dict_get sample_comment "parentCommentID" = Some v
             /\ ((v = JNull /\ Comment.parentCommentID sample_comment_record = None)
                 \/ exists s, v = JStr s
                              /\ Comment.parentCommentID sample_comment_record = Some s))
  /\ (exists v, dict_get sample_comment "replyAddress" = Some v
                /\ ((v = JNull /\ Comment.replyAddress sample_comment_record = None)
                    \/ exists s, v = JStr s
                                 /\ Comment.replyAddress sample_comment_record = Some s)).
Proof.
  apply (@comment_parent_is_required_but_nullable reference_runtime sample_comment
           sample_comment_record).
  reflexivity.
Defined.

(** X26 at the trade of the first scenario. *)
Lemma trade_side_is_buy_or_sell_witness :
  (dict_get sample_trade "side" = Some (JStr "BUY")
   /\ Trade.side sample_trade_record = Trade.BUY)
  \/ (dict_get sample_trade "side" = Some (JStr "SELL")
      /\ Trade.side sample_trade_record = Trade.SELL).
Proof.
  apply (@trade_side_is_buy_or_sell reference_runtime sample_trade sample_trade_record).
  reflexivity.
Defined.
